(** * Insurance claims manager

    A shallow embedding of [Assignment-1.py]: the two dataclasses
    ([Policyholder], [Claim]), the store ([InsuranceDataManager]) with its
    JSON snapshot, the [RiskAnalyzer] and the [ReportsGenerator], and the
    properties of these that the specification states.

    Conventions of the embedding.
    - A Python [dict] is an association list in insertion order with unique
      keys; assigning to a present key keeps its position.
    - A Python [float] is an IEEE 754 binary64 value, a [spec_float] with the
      operations of [SpecFloat] at precision 53 and maximal exponent 1024.
    - A raised exception is the [Raise] outcome of a [result].
    - What the code reads from its environment (the clock, the random uuid)
      is an argument of the operation that reads it.
    - The snapshot file holds a JSON document; the text layer of [json.dump]
      and [json.load] and failures of the file system are not modelled. *)

From Stdlib Require Import ZArith List String Ascii Bool Lia SpecFloat.
Import ListNotations.
Local Open Scope string_scope.
Local Open Scope list_scope.
Local Open Scope Z_scope.
#[local] Set Warnings "-register-all".

(* ================================================================= *)
(** * Python prelude *)

(** ** Exceptions and results *)

(** The exceptions the modelled code can raise.  [Untyped] is not a Python
    exception: it marks a loaded value whose JSON type is not the one the
    dataclass declares for the field, where Python would build the object
    regardless and this typed embedding stops. *)
Inductive exn : Type :=
| ValueError (msg : string)
| KeyError (key : string)
| TypeError (msg : string)
| AttributeError (msg : string)
| ZeroDivisionError
| OverflowError
| Untyped (field : string).

Inductive result (A : Type) : Type :=
| Ok (a : A)
| Raise (e : exn).
Arguments Ok {A} a.
Arguments Raise {A} e.

Definition bind {A B : Type} (r : result A) (k : A -> result B) : result B :=
  match r with
  | Ok a => k a
  | Raise e => Raise e
  end.

Notation "x <- r ;; k" := (bind r (fun x => k))
  (at level 61, r at next level, right associativity).
Notation "' p <- r ;; k" := (bind r (fun p => k))
  (at level 61, p pattern, r at next level, right associativity).

(** ** Dictionaries *)

Definition dict (V : Type) : Type := list (string * V).

Section Dict.
Context {V : Type}.

(** [d.get(k)] *)
Fixpoint dict_get (d : dict V) (k : string) : option V :=
  match d with
  | [] => None
  | (k', v) :: r => if String.eqb k' k then Some v else dict_get r k
  end.

(** [k in d] *)
Definition dict_contains (d : dict V) (k : string) : bool :=
  match dict_get d k with
  | Some _ => true
  | None => false
  end.

(** [d[k]] *)
Definition dict_getitem (d : dict V) (k : string) : result V :=
  match dict_get d k with
  | Some v => Ok v
  | None => Raise (KeyError k)
  end.

(** [d[k] = v]: in place when [k] is present, at the end otherwise. *)
Fixpoint dict_set (d : dict V) (k : string) (v : V) : dict V :=
  match d with
  | [] => [(k, v)]
  | (k', v') :: r =>
      if String.eqb k' k then (k', v) :: r else (k', v') :: dict_set r k v
  end.

Definition dict_keys (d : dict V) : list string := map fst d.
Definition dict_values (d : dict V) : list V := map snd d.
End Dict.

Fixpoint unique (ks : list string) : bool :=
  match ks with
  | [] => true
  | k :: r => negb (existsb (String.eqb k) r) && unique r
  end.

(** The representation invariant of a dictionary: no key occurs twice. *)
Definition dict_wf {V : Type} (d : dict V) : bool := unique (dict_keys d).

(** ** Strings *)

(** [str.lower] on ASCII letters.  Other bytes are kept: the only character
    outside ASCII that Python lowers to an ASCII letter is the Kelvin sign
    (to [k]), and no key compared with a lowered string below has a [k]. *)
Definition ascii_lower (c : ascii) : ascii :=
  let n := nat_of_ascii c in
  if ((65 <=? n) && (n <=? 90))%nat then ascii_of_nat (n + 32) else c.

Fixpoint lower (s : string) : string :=
  match s with
  | EmptyString => EmptyString
  | String c r => String (ascii_lower c) (lower r)
  end.

Definition digit (n : Z) : ascii := ascii_of_nat (48 + Z.to_nat n).

Fixpoint digits_from (fuel : nat) (n : Z) (acc : string) : string :=
  match fuel with
  | O => acc
  | S fuel' =>
      let acc' := String (digit (n mod 10)) acc in
      if n <? 10 then acc' else digits_from fuel' (n / 10) acc'
  end.

(** [str(n)] for an integer. *)
Definition str_of_Z (n : Z) : string :=
  if n <? 0
  then String "-" (digits_from (S (Z.to_nat (Z.log2 (- n)))) (- n) "")
  else digits_from (S (Z.to_nat (Z.log2 n))) n "".

Definition pad2 (n : Z) : string :=
  String (digit (n / 10)) (String (digit (n mod 10)) "").

Definition pad4 (n : Z) : string :=
  String (digit (n / 1000)) (String (digit (n / 100 mod 10))
    (String (digit (n / 10 mod 10)) (String (digit (n mod 10)) ""))).

(** ** Numbers *)

(** Every binary64 value is a [spec_float] that [valid_binary prec emax]
    accepts.  The operations are total on [spec_float], and what is proved
    below of all of them holds of the valid ones. *)
Definition float : Type := spec_float.

Definition prec : Z := 53.
Definition emax : Z := 1024.

Definition fadd : float -> float -> float := SFadd prec emax.
Definition fsub : float -> float -> float := SFsub prec emax.
Definition fmul : float -> float -> float := SFmul prec emax.
Definition fdiv : float -> float -> float := SFdiv prec emax.
Definition flt : float -> float -> bool := SFltb.
Definition fle : float -> float -> bool := SFleb.
Definition fabs : float -> float := SFabs.

(** [float(z)], rounded to nearest even. *)
Definition float_of_Z (z : Z) : float := binary_normalize prec emax z 0 false.

Definition is_nan (x : float) : bool :=
  match x with
  | S754_nan => true
  | _ => false
  end.

Definition is_finite (x : float) : bool :=
  match x with
  | S754_zero _ | S754_finite _ _ _ => true
  | _ => false
  end.

Definition fzero (x : float) : bool :=
  match x with
  | S754_zero _ => true
  | _ => false
  end.

(** The literal [0.8]. *)
Definition f0_8 : float := S754_finite false 7205759403792794 (-53).

(** A Python number where the code mixes [int] and [float]. *)
Inductive number : Type :=
| Int (z : Z)
| Float (f : float).

Definition to_float (n : number) : float :=
  match n with
  | Int z => float_of_Z z
  | Float f => f
  end.

(** [a + b] *)
Definition py_add (a b : number) : number :=
  match a, b with
  | Int x, Int y => Int (x + y)
  | _, _ => Float (fadd (to_float a) (to_float b))
  end.

Definition number_is_zero (n : number) : bool :=
  match n with
  | Int z => z =? 0
  | Float f => fzero f
  end.

(** [a / b] where at least one operand is a [float] (the code never divides
    an [int] by an [int]). *)
Definition py_truediv (a b : number) : result float :=
  if number_is_zero b then Raise ZeroDivisionError
  else Ok (fdiv (to_float a) (to_float b)).

(** [x <= 0] and [x > 0.8] for a [float] [x]. *)
Definition float_le_0 (x : float) : bool := fle x (S754_zero false).
Definition float_gt_0_8 (x : float) : bool := flt f0_8 x.

(** The builtin [sum] over floats adds from left to right up to CPython
    3.11 and uses Neumaier's compensated summation from 3.12. *)
Variant cpython : Type := Before_3_12 | Since_3_12.

Fixpoint neumaier (xs : list float) (f c : float) : float * float :=
  match xs with
  | [] => (f, c)
  | x :: r =>
      let t := fadd f x in
      let c' := if fle (fabs x) (fabs f)
                then fadd c (fadd (fsub f t) x)
                else fadd c (fadd (fsub x t) f) in
      neumaier r t c'
  end.

(** [sum(xs)] with the default start [0]. *)
Definition builtin_sum (v : cpython) (xs : list float) : number :=
  match xs with
  | [] => Int 0
  | x :: r =>
      let f0 := fadd (float_of_Z 0) x in
      match v with
      | Before_3_12 => Float (fold_left fadd r f0)
      | Since_3_12 =>
          let '(f, c) := neumaier r f0 (S754_zero false) in
          Float (if negb (fzero c) && is_finite c then fadd f c else f)
      end
  end.

(** ** Formatting *)

Definition round_half_even_div (a b : Z) : Z :=
  let q := a / b in
  match 2 * (a mod b) ?= b with
  | Lt => q
  | Gt => q + 1
  | Eq => if Z.even q then q else q + 1
  end.

(** [format(x, '.2f')] *)
Definition format_fixed2 (x : float) : string :=
  match x with
  | S754_nan => "nan"
  | S754_infinity s => if s then "-inf" else "inf"
  | S754_zero s => if s then "-0.00" else "0.00"
  | S754_finite s m e =>
      let n := if 0 <=? e then Zpos m * 2 ^ e * 100
               else round_half_even_div (Zpos m * 100) (2 ^ (- e)) in
      ((if s then "-" else "") ++ str_of_Z (n / 100) ++ "." ++ pad2 (n mod 100))%string
  end.

(** [format(x, '.2%')]: the value times 100 in fixed notation, then [%]. *)
Definition format_percent2 (x : float) : string :=
  (format_fixed2 (fmul x (float_of_Z 100)) ++ "%")%string.

(* ================================================================= *)
(** * Dates and times

    A naive [datetime] is a point of the proleptic Gregorian time line: the
    ordinal of its day (1 is 0001-01-01) and the microseconds since
    midnight. *)

Definition is_leap (year : Z) : bool :=
  (year mod 4 =? 0) && (negb (year mod 100 =? 0) || (year mod 400 =? 0)).

Definition days_before_year (year : Z) : Z :=
  let y := year - 1 in y * 365 + y / 4 - y / 100 + y / 400.

Definition DAYS_IN_MONTH : list Z :=
  [0; 31; 28; 31; 30; 31; 30; 31; 31; 30; 31; 30; 31].

Definition DAYS_BEFORE_MONTH : list Z :=
  [0; 0; 31; 59; 90; 120; 151; 181; 212; 243; 273; 304; 334].

Definition days_in_month (year month : Z) : Z :=
  if (month =? 2) && is_leap year then 29
  else nth (Z.to_nat month) DAYS_IN_MONTH 0.

Definition days_before_month (year month : Z) : Z :=
  nth (Z.to_nat month) DAYS_BEFORE_MONTH 0
  + (if (2 <? month) && is_leap year then 1 else 0).

Definition ymd2ord (year month day : Z) : Z :=
  days_before_year year + days_before_month year month + day.

(** Month and day of the [n]-th day (from 0) of a year. *)
Definition month_day (leapyear : bool) (n : Z) : Z * Z :=
  let month := Z.shiftr (n + 50) 5 in
  let preceding := nth (Z.to_nat month) DAYS_BEFORE_MONTH 0
                   + (if (2 <? month) && leapyear then 1 else 0) in
  if n <? preceding
  then
    let month' := month - 1 in
    let preceding' := preceding
                      - (nth (Z.to_nat month') DAYS_IN_MONTH 0
                         + (if (month' =? 2) && leapyear then 1 else 0)) in
    (month', n - preceding' + 1)
  else (month, n - preceding + 1).

Definition ord2ymd (ordinal : Z) : Z * Z * Z :=
  let n := ordinal - 1 in
  let n400 := n / 146097 in
  let n := n mod 146097 in
  let n100 := n / 36524 in
  let n := n mod 36524 in
  let n4 := n / 1461 in
  let n := n mod 1461 in
  let n1 := n / 365 in
  let n := n mod 365 in
  let year := n400 * 400 + 1 + n100 * 100 + n4 * 4 + n1 in
  if (n1 =? 4) || (n100 =? 4) then (year - 1, 12, 31)
  else
    let leapyear := (n1 =? 3) && (negb (n4 =? 24) || (n100 =? 3)) in
    let '(month, day) := month_day leapyear n in
    (year, month, day).

(** The ordinal of 9999-12-31 and of 1970-01-01. *)
Definition MAXORDINAL : Z := 3652059.
Definition EPOCH : Z := 719163.
Definition DAY_MICROS : Z := 86400000000.

Record datetime : Type := { ordinal : Z; micros : Z }.

(** What [datetime.now()] can return: the system clock counts from the
    epoch, and the type ends with year 9999. *)
Definition system_time (t : datetime) : bool :=
  (EPOCH <=? ordinal t) && (ordinal t <=? MAXORDINAL)
  && (0 <=? micros t) && (micros t <? DAY_MICROS).

(** [t - timedelta(days=days)] *)
Definition sub_days (t : datetime) (days : Z) : result datetime :=
  if (days <? -999999999) || (999999999 <? days) then Raise OverflowError
  else
    let o := ordinal t - days in
    if (1 <=? o) && (o <=? MAXORDINAL)
    then Ok {| ordinal := o; micros := micros t |}
    else Raise OverflowError.

(** [a >= b] *)
Definition datetime_ge (a b : datetime) : bool :=
  (ordinal b <? ordinal a) || ((ordinal a =? ordinal b) && (micros b <=? micros a)).

(** [t.strftime("%Y-%m-%d")], the year on four digits (which the C library
    gives from year 1000 on every platform). *)
Definition strftime_ymd (t : datetime) : string :=
  let '(y, m, d) := ord2ymd (ordinal t) in
  (pad4 y ++ "-" ++ pad2 m ++ "-" ++ pad2 d)%string.

(** [t.strftime("%Y-%m")] *)
Definition strftime_ym (t : datetime) : string :=
  let '(y, m, _) := ord2ymd (ordinal t) in
  (pad4 y ++ "-" ++ pad2 m)%string.

Definition char_between (lo hi c : ascii) : bool :=
  ((nat_of_ascii lo <=? nat_of_ascii c) && (nat_of_ascii c <=? nat_of_ascii hi))%nat.

Definition digit_value (c : ascii) : Z := Z.of_nat (nat_of_ascii c) - 48.

(** The directive [%m]: [1[0-2]|0[1-9]|[1-9]], the first alternative that
    matches.  The value and the rest of the text. *)
Definition match_month (s : string) : option (Z * string) :=
  match s with
  | String a (String b r) =>
      if Ascii.eqb a "1" && char_between "0" "2" b then Some (10 + digit_value b, r)
      else if Ascii.eqb a "0" && char_between "1" "9" b then Some (digit_value b, r)
      else if char_between "1" "9" a then Some (digit_value a, String b r)
      else None
  | String a EmptyString =>
      if char_between "1" "9" a then Some (digit_value a, EmptyString) else None
  | EmptyString => None
  end.

(** The directive [%d]: [3[0-1]|[1-2]\d|0[1-9]|[1-9]| [1-9]]. *)
Definition match_day (s : string) : option (Z * string) :=
  match s with
  | String a (String b r) =>
      if Ascii.eqb a "3" && char_between "0" "1" b then Some (30 + digit_value b, r)
      else if char_between "1" "2" a && char_between "0" "9" b
           then Some (10 * digit_value a + digit_value b, r)
      else if Ascii.eqb a "0" && char_between "1" "9" b then Some (digit_value b, r)
      else if char_between "1" "9" a then Some (digit_value a, String b r)
      else if Ascii.eqb a " " && char_between "1" "9" b then Some (digit_value b, r)
      else None
  | String a EmptyString =>
      if char_between "1" "9" a then Some (digit_value a, EmptyString) else None
  | EmptyString => None
  end.

(** The regular expression of the format ["%Y-%m-%d"] matched at the start
    of ASCII text, all of which must be consumed: the year, the month and
    the day it reads. *)
Definition match_format (s : string) : result (Z * Z * Z) :=
  match s with
  | String y1 (String y2 (String y3 (String y4 (String "-" r)))) =>
      if char_between "0" "9" y1 && char_between "0" "9" y2
         && char_between "0" "9" y3 && char_between "0" "9" y4
      then
        match match_month r with
        | Some (month, String "-" r') =>
            match match_day r' with
            | Some (day, EmptyString) =>
                Ok (1000 * digit_value y1 + 100 * digit_value y2
                    + 10 * digit_value y3 + digit_value y4, month, day)
            | Some _ => Raise (ValueError "unconverted data remains")
            | None => Raise (ValueError "time data does not match format")
            end
        | _ => Raise (ValueError "time data does not match format")
        end
      else Raise (ValueError "time data does not match format")
  | _ => Raise (ValueError "time data does not match format")
  end.

(** [datetime.strptime(s, "%Y-%m-%d")]: the date read must be a date of the
    calendar, and the time is midnight.  Every failure is a [ValueError];
    the messages are shortened. *)
Definition strptime_ymd (s : string) : result datetime :=
  '(year, month, day) <- match_format s ;;
  if (1 <=? year) && (day <=? days_in_month year month)
  then Ok {| ordinal := ymd2ord year month day; micros := 0 |}
  else Raise (ValueError "date out of range").

(* ================================================================= *)
(** * JSON documents *)

Inductive json : Type :=
| JNull
| JBool (b : bool)
| JInt (z : Z)
| JFloat (f : float)
| JString (s : string)
| JArray (l : list json)
| JObject (o : list (string * json)).

(** A dataclass constructor called with keyword arguments accepts exactly
    the declared fields. *)
Definition same_keys (fields : list string) (kw : list (string * json)) : bool :=
  forallb (fun k => existsb (String.eqb k) fields) (map fst kw)
  && forallb (fun f => existsb (String.eqb f) (map fst kw)) fields.

(** A monadic loop: [for x in xs: s = body(s, x)]. *)
Fixpoint for_each {A S : Type} (xs : list A) (body : S -> A -> result S) (s : S)
  : result S :=
  match xs with
  | [] => Ok s
  | x :: r => s' <- body s x ;; for_each r body s'
  end.

(* ================================================================= *)
(** * Data models *)

Module Policyholder.
Record t : Type := {
  id : string;
  name : string;
  age : Z;
  policy_type : string;
  sum_insured : float
}.

Definition fields : list string :=
  ["id"; "name"; "age"; "policy_type"; "sum_insured"].

Definition to_dict (self : t) : json :=
  JObject [("id", JString (id self));
           ("name", JString (name self));
           ("age", JInt (age self));
           ("policy_type", JString (policy_type self));
           ("sum_insured", JFloat (sum_insured self))].

Definition from_dict (data : json) : result t :=
  match data with
  | JObject kw =>
      if same_keys fields kw then
        match dict_get kw "id", dict_get kw "name", dict_get kw "age",
              dict_get kw "policy_type", dict_get kw "sum_insured" with
        | Some (JString i), Some (JString n), Some (JInt a),
          Some (JString p), Some (JFloat s) =>
            Ok {| id := i; name := n; age := a;
                  policy_type := p; sum_insured := s |}
        | _, _, _, _, _ => Raise (Untyped "Policyholder")
        end
      else Raise (TypeError "__init__() got unexpected or missing arguments")
  | _ => Raise (TypeError "argument after ** must be a mapping")
  end.
End Policyholder.

Module Claim.
Record t : Type := {
  id : string;
  policyholder_id : string;
  claim_amount : float;
  reason : string;
  status : string;
  date_of_claim : string
}.

Definition fields : list string :=
  ["id"; "policyholder_id"; "claim_amount"; "reason"; "status"; "date_of_claim"].

Definition to_dict (self : t) : json :=
  JObject [("id", JString (id self));
           ("policyholder_id", JString (policyholder_id self));
           ("claim_amount", JFloat (claim_amount self));
           ("reason", JString (reason self));
           ("status", JString (status self));
           ("date_of_claim", JString (date_of_claim self))].

Definition from_dict (data : json) : result t :=
  match data with
  | JObject kw =>
      if same_keys fields kw then
        match dict_get kw "id", dict_get kw "policyholder_id",
              dict_get kw "claim_amount", dict_get kw "reason",
              dict_get kw "status", dict_get kw "date_of_claim" with
        | Some (JString i), Some (JString p), Some (JFloat a),
          Some (JString r), Some (JString s), Some (JString d) =>
            Ok {| id := i; policyholder_id := p; claim_amount := a;
                  reason := r; status := s; date_of_claim := d |}
        | _, _, _, _, _, _ => Raise (Untyped "Claim")
        end
      else Raise (TypeError "__init__() got unexpected or missing arguments")
  | _ => Raise (TypeError "argument after ** must be a mapping")
  end.

(** [self.status = status] *)
Definition set_status (self : t) (s : string) : t :=
  {| id := id self; policyholder_id := policyholder_id self;
     claim_amount := claim_amount self; reason := reason self;
     status := s; date_of_claim := date_of_claim self |}.
End Claim.

(* ================================================================= *)
(** * The store *)

Module InsuranceDataManager.
Record t : Type := {
  policyholders : dict Policyholder.t;
  claims : dict Claim.t
}.

(** The manager and the content of the file at [self.data_file], if the
    file exists. *)
Record world : Type := {
  manager : t;
  data_file : option json
}.

Definition with_policyholders (self : t) (p : dict Policyholder.t) : t :=
  {| policyholders := p; claims := claims self |}.

Definition with_claims (self : t) (c : dict Claim.t) : t :=
  {| policyholders := policyholders self; claims := c |}.

(** The document [save_data] writes. *)
Definition save_data (self : t) : json :=
  JObject
    [("policyholders",
      JObject (map (fun '(k, v) => (k, Policyholder.to_dict v)) (policyholders self)));
     ("claims",
      JObject (map (fun '(k, v) => (k, Claim.to_dict v)) (claims self)))].

(** [data.get(key, {}).items()] *)
Definition get_items (data : json) (key : string) : result (list (string * json)) :=
  match data with
  | JObject o =>
      match dict_get o key with
      | None => Ok []
      | Some (JObject items) => Ok items
      | Some _ => Raise (AttributeError "object has no attribute 'items'")
      end
  | _ => Raise (AttributeError "object has no attribute 'get'")
  end.

(** [{k: from_dict(v) for k, v in items}] *)
Definition from_items {V : Type} (from_dict : json -> result V)
           (items : list (string * json)) : result (dict V) :=
  for_each items
    (fun acc '(k, v) => x <- from_dict v ;; Ok (dict_set acc k x)) [].

(** [load_data]: the manager afterwards, and the exception reported with
    [st.error], if any.  The policyholders are assigned before the claims
    are read. *)
Definition load_data (file : option json) (self : t) : t * option exn :=
  match file with
  | None => (self, None)
  | Some data =>
      match items <- get_items data "policyholders" ;;
            from_items Policyholder.from_dict items with
      | Raise e => (self, Some e)
      | Ok p =>
          let self := with_policyholders self p in
          match items <- get_items data "claims" ;;
                from_items Claim.from_dict items with
          | Raise e => (self, Some e)
          | Ok c => (with_claims self c, None)
          end
      end
  end.

(** [InsuranceDataManager()] *)
Definition init (file : option json) : t :=
  fst (load_data file {| policyholders := []; claims := [] |}).

Definition saved (self : t) : world :=
  {| manager := self; data_file := Some (save_data self) |}.

Definition add_policyholder (name : string) (age : Z) (policy_type : string)
           (sum_insured : float) (uuid4 : string) (w : world)
  : result string * world :=
  if (String.eqb name "") || (age <=? 0) || float_le_0 sum_insured
  then (Raise (ValueError "Invalid input: Name cannot be empty, age and sum insured must be positive"), w)
  else
    let self := manager w in
    let policyholder_id := uuid4 in
    let self := with_policyholders self
      (dict_set (policyholders self) policyholder_id
         {| Policyholder.id := policyholder_id;
            Policyholder.name := name;
            Policyholder.age := age;
            Policyholder.policy_type := policy_type;
            Policyholder.sum_insured := sum_insured |}) in
    (Ok policyholder_id, saved self).

Definition add_claim (policyholder_id : string) (claim_amount : float)
           (reason status : string) (uuid4 : string) (now : datetime) (w : world)
  : result string * world :=
  let self := manager w in
  if negb (dict_contains (policyholders self) policyholder_id)
  then (Raise (ValueError "Policyholder not found"), w)
  else if float_le_0 claim_amount
  then (Raise (ValueError "Claim amount must be positive"), w)
  else
    let claim_id := uuid4 in
    let self := with_claims self
      (dict_set (claims self) claim_id
         {| Claim.id := claim_id;
            Claim.policyholder_id := policyholder_id;
            Claim.claim_amount := claim_amount;
            Claim.reason := reason;
            Claim.status := status;
            Claim.date_of_claim := strftime_ymd now |}) in
    (Ok claim_id, saved self).

Definition update_claim_status (claim_id status : string) (w : world)
  : result unit * world :=
  let self := manager w in
  match dict_get (claims self) claim_id with
  | None => (Raise (ValueError "Claim not found"), w)
  | Some claim =>
      let self := with_claims self
        (dict_set (claims self) claim_id (Claim.set_status claim status)) in
      (Ok tt, saved self)
  end.

Definition get_claims_by_policyholder (self : t) (policyholder_id : string)
  : list Claim.t :=
  filter (fun claim => String.eqb (Claim.policyholder_id claim) policyholder_id)
         (dict_values (claims self)).

(** The comprehension of [calculate_claim_frequency]. *)
Fixpoint recent_claims (cutoff_date : datetime) (claims : list Claim.t)
  : result (list Claim.t) :=
  match claims with
  | [] => Ok []
  | claim :: r =>
      d <- strptime_ymd (Claim.date_of_claim claim) ;;
      rest <- recent_claims cutoff_date r ;;
      Ok (if datetime_ge d cutoff_date then claim :: rest else rest)
  end.

Definition calculate_claim_frequency (self : t) (policyholder_id : string)
           (days : Z) (now : datetime) : result Z :=
  cutoff_date <- sub_days now days ;;
  let claims := get_claims_by_policyholder self policyholder_id in
  recent <- recent_claims cutoff_date claims ;;
  Ok (Z.of_nat (List.length recent)).

(** An entry of the list [get_high_risk_policyholders] returns. *)
Record high_risk : Type := {
  policyholder : Policyholder.t;
  claim_frequency : Z;
  total_claims : number;
  claim_ratio : float;
  risk_factors : list string
}.

Definition frequency_factor (claim_frequency : Z) : string :=
  ("High frequency: " ++ str_of_Z claim_frequency ++ " claims")%string.

Definition ratio_factor (claim_ratio : float) : string :=
  ("High claim ratio: " ++ format_percent2 claim_ratio)%string.

Definition get_high_risk_policyholders (v : cpython) (self : t) (now : datetime)
  : result (list high_risk) :=
  for_each (policyholders self)
    (fun high_risk '(policyholder_id, policyholder) =>
       let claims := get_claims_by_policyholder self policyholder_id in
       claim_frequency <- calculate_claim_frequency self policyholder_id 365 now ;;
       let total_claim_amount := builtin_sum v (map Claim.claim_amount claims) in
       claim_ratio <- py_truediv total_claim_amount
                                 (Float (Policyholder.sum_insured policyholder)) ;;
       let risk_factors := [] in
       let risk_factors :=
         if 3 <? claim_frequency
         then risk_factors ++ [frequency_factor claim_frequency]
         else risk_factors in
       let risk_factors :=
         if float_gt_0_8 claim_ratio
         then risk_factors ++ [ratio_factor claim_ratio]
         else risk_factors in
       match risk_factors with
       | [] => Ok high_risk
       | _ => Ok (high_risk ++
                  [{| policyholder := policyholder;
                      claim_frequency := claim_frequency;
                      total_claims := total_claim_amount;
                      claim_ratio := claim_ratio;
                      risk_factors := risk_factors |}])
       end)
    [].
End InsuranceDataManager.

(* ================================================================= *)
(** * Risk analysis *)

Module RiskAnalyzer.
Import InsuranceDataManager.

Definition new_entry : dict number :=
  [("count", Int 0); ("total_amount", Int 0);
   ("pending", Int 0); ("approved", Int 0); ("rejected", Int 0)].

(** [policy_claims[policy_type][key] += delta] *)
Definition increment (policy_claims : dict (dict number))
           (policy_type key : string) (delta : number)
  : result (dict (dict number)) :=
  entry <- dict_getitem policy_claims policy_type ;;
  old <- dict_getitem entry key ;;
  Ok (dict_set policy_claims policy_type (dict_set entry key (py_add old delta))).

Definition get_claims_by_policy_type (data_manager : t)
  : result (dict (dict number)) :=
  for_each (dict_values (claims data_manager))
    (fun policy_claims claim =>
       policyholder <- dict_getitem (policyholders data_manager)
                                    (Claim.policyholder_id claim) ;;
       let policy_type := Policyholder.policy_type policyholder in
       let policy_claims :=
         if negb (dict_contains policy_claims policy_type)
         then dict_set policy_claims policy_type new_entry
         else policy_claims in
       policy_claims <- increment policy_claims policy_type "count" (Int 1) ;;
       policy_claims <- increment policy_claims policy_type "total_amount"
                                  (Float (Claim.claim_amount claim)) ;;
       increment policy_claims policy_type (lower (Claim.status claim)) (Int 1))
    [].
End RiskAnalyzer.

(* ================================================================= *)
(** * Reports *)

Module ReportsGenerator.
Import InsuranceDataManager.

(** [d.get(k, 0)] *)
Definition get_or_0 (d : dict number) (k : string) : number :=
  match dict_get d k with
  | Some n => n
  | None => Int 0
  end.

(** The loop of [get_average_claim_by_policy_type]: the totals and the
    counts per policy type. *)
Definition totals_and_counts (data_manager : t)
  : result (dict number * dict number) :=
  for_each (dict_values (claims data_manager))
    (fun '(policy_totals, policy_counts) claim =>
       policyholder <- dict_getitem (policyholders data_manager)
                                    (Claim.policyholder_id claim) ;;
       let policy_type := Policyholder.policy_type policyholder in
       Ok (dict_set policy_totals policy_type
             (py_add (get_or_0 policy_totals policy_type)
                     (Float (Claim.claim_amount claim))),
           dict_set policy_counts policy_type
             (py_add (get_or_0 policy_counts policy_type) (Int 1))))
    ([], []).

Definition get_average_claim_by_policy_type (data_manager : t)
  : result (dict float) :=
  '(policy_totals, policy_counts) <- totals_and_counts data_manager ;;
  for_each (dict_keys policy_totals)
    (fun averages policy_type =>
       total <- dict_getitem policy_totals policy_type ;;
       count <- dict_getitem policy_counts policy_type ;;
       average <- py_truediv total count ;;
       Ok (dict_set averages policy_type average))
    [].

(** [max(xs, key=key)] on a non-empty sequence: the running maximum is
    replaced only by a strictly greater key. *)
Definition max_by {A : Type} (key : A -> float) (first : A) (rest : list A) : A :=
  fold_left (fun best item => if flt (key best) (key item) then item else best)
            rest first.

Definition get_highest_claim (data_manager : t) : option Claim.t :=
  match dict_values (claims data_manager) with
  | [] => None
  | first :: rest => Some (max_by Claim.claim_amount first rest)
  end.

(** [d.get(k, 0)] for a dictionary of integers. *)
Definition get_int (d : dict Z) (k : string) : Z :=
  match dict_get d k with
  | Some n => n
  | None => 0
  end.

Definition get_monthly_claims (data_manager : t) : result (dict Z) :=
  for_each (dict_values (claims data_manager))
    (fun monthly_claims claim =>
       d <- strptime_ymd (Claim.date_of_claim claim) ;;
       let month_year := strftime_ym d in
       Ok (dict_set monthly_claims month_year
                    (get_int monthly_claims month_year + 1)))
    [].

(** An entry of the list [get_pending_claims] returns. *)
Record pending : Type := {
  claim : Claim.t;
  claim_policyholder : Policyholder.t
}.

Definition get_pending_claims (data_manager : t) : result (list pending) :=
  for_each (dict_values (claims data_manager))
    (fun pending_claims claim =>
       if String.eqb (lower (Claim.status claim)) "pending"
       then
         policyholder <- dict_getitem (policyholders data_manager)
                                      (Claim.policyholder_id claim) ;;
         Ok (pending_claims ++ [{| claim := claim;
                                   claim_policyholder := policyholder |}])
       else Ok pending_claims)
    [].
End ReportsGenerator.

(* ================================================================= *)
(** * Pages

    The values the presentation layer computes from the store before it
    renders them. *)

Module Pages.
Import InsuranceDataManager.

(** The four metrics of [dashboard_page]: the numbers of policyholders and
    of claims, the number of pending claims ([sum] of a 1 per claim whose
    lowered status is "pending") and the total of the claim amounts. *)
Record metrics : Type := {
  total_policyholders : Z;
  total_claims : Z;
  pending_claims : Z;
  total_claim_amount : number
}.

Definition dashboard_metrics (v : cpython) (data_manager : t) : metrics :=
  {| total_policyholders := Z.of_nat (List.length (policyholders data_manager));
     total_claims := Z.of_nat (List.length (claims data_manager));
     pending_claims :=
       fold_left Z.add
         (map (fun _ => 1)
              (filter (fun claim => String.eqb (lower (Claim.status claim)) "pending")
                      (dict_values (claims data_manager))))
         0;
     total_claim_amount :=
       builtin_sum v (map Claim.claim_amount (dict_values (claims data_manager))) |}.

(** The column "Total Claims" of [policyholder_management_page]: for each
    policyholder the number of claims filed under its [id]. *)
Definition claims_counts (data_manager : t) : list (string * Z) :=
  map (fun ph =>
         (Policyholder.id ph,
          Z.of_nat (List.length
                      (get_claims_by_policyholder data_manager (Policyholder.id ph)))))
      (dict_values (policyholders data_manager)).
End Pages.

(* ================================================================= *)
(** * Sessions

    The states of the store are those its operations build: a session starts
    on a machine with no snapshot and runs the operations the presentation
    layer calls; an operation that raises leaves the store as it was. *)

Module Session.
Import InsuranceDataManager.

Inductive command : Type :=
| AddPolicyholder (name : string) (age : Z) (policy_type : string)
                  (sum_insured : float) (uuid4 : string)
| AddClaim (policyholder_id : string) (claim_amount : float)
           (reason status : string) (uuid4 : string) (now : datetime)
| UpdateClaimStatus (claim_id status : string)
| NewManager.

Definition step (w : world) (c : command) : world :=
  match c with
  | AddPolicyholder name age policy_type sum_insured uuid4 =>
      snd (add_policyholder name age policy_type sum_insured uuid4 w)
  | AddClaim policyholder_id claim_amount reason status uuid4 now =>
      snd (add_claim policyholder_id claim_amount reason status uuid4 now w)
  | UpdateClaimStatus claim_id status =>
      snd (update_claim_status claim_id status w)
  | NewManager =>
      {| manager := init (data_file w); data_file := data_file w |}
  end.

(** The clock readings of a session are system times. *)
Definition clock_ok (c : command) : bool :=
  match c with
  | AddClaim _ _ _ _ _ now => system_time now
  | _ => true
  end.

Definition session : Type := list command.

Definition session_ok (s : session) : bool := forallb clock_ok s.

Definition fresh : world := {| manager := init None; data_file := None |}.

Definition run (s : session) : world := fold_left step s fresh.
End Session.

(* ================================================================= *)
(** * Notions of the statements *)

(** ** The order of floats

    A key whose lexicographic order is the order [SFcompare] computes on
    floats other than NaN. *)
Definition order_key (x : float) : Z * Z * Z :=
  match x with
  | S754_nan => (0, 0, 0)
  | S754_zero _ => (0, 0, 0)
  | S754_infinity s => (if s then -2 else 2, 0, 0)
  | S754_finite s m e => if s then (-1, - e, Zneg m) else (1, e, Zpos m)
  end.

Definition key_lt (a b : Z * Z * Z) : Prop :=
  let '(a1, a2, a3) := a in
  let '(b1, b2, b3) := b in
  a1 < b1 \/ (a1 = b1 /\ (a2 < b2 \/ (a2 = b2 /\ a3 < b3))).

Definition key_le (a b : Z * Z * Z) : Prop :=
  let '(a1, a2, a3) := a in
  let '(b1, b2, b3) := b in
  a1 < b1 \/ (a1 = b1 /\ (a2 < b2 \/ (a2 = b2 /\ a3 <= b3))).

(** Case analysis on the comparisons of a goal. *)
Ltac compare_cases :=
  repeat match goal with
  | |- context [Z.compare ?a ?b] => destruct (Z.compare_spec a b)
  | |- context [Pos.compare_cont Eq ?a ?b] =>
      change (Pos.compare_cont Eq a b) with (Pos.compare a b);
      destruct (Pos.compare_spec a b)
  end.

(** ** Checks over a finite range *)

Fixpoint forall_below (k : nat) (p : Z -> bool) : bool :=
  match k with
  | O => true
  | S k' => p (Z.of_nat k') && forall_below k' p
  end.

Definition month_day_check (leapyear : bool) (n : Z) : bool :=
  let '(m, d) := month_day leapyear n in
  (1 <=? m) && (m <=? 12) && (1 <=? d)
  && (d <=? (if (m =? 2) && leapyear then 29 else nth (Z.to_nat m) DAYS_IN_MONTH 0))
  && (nth (Z.to_nat m) DAYS_BEFORE_MONTH 0
      + (if (2 <? m) && leapyear then 1 else 0) + d =? n + 1).

(** ** The store *)

Module Spec.
Import InsuranceDataManager.

(** The day a claim is dated, when its date is well formed. *)
Definition claim_day (claim : Claim.t) : option Z :=
  match strptime_ymd (Claim.date_of_claim claim) with
  | Ok d => Some (ordinal d)
  | Raise _ => None
  end.

(** The claims [calculate_claim_frequency] counts: those dated later than
    [days] days before today, and those dated exactly [days] days before
    today when the clock reads midnight. *)
Definition in_window (now : datetime) (days : Z) (claim : Claim.t) : bool :=
  match claim_day claim with
  | Some o =>
      (ordinal now - days <? o)
      || ((o =? ordinal now - days) && (micros now =? 0))
  | None => false
  end.


(** What the operations of the store maintain. *)
Record store_ok (w : world) : Prop := {
  ok_policyholders : dict_wf (policyholders (manager w)) = true;
  ok_claims : dict_wf (claims (manager w)) = true;
  ok_reference : forall k c, In (k, c) (claims (manager w)) ->
    dict_contains (policyholders (manager w)) (Claim.policyholder_id c) = true;
  ok_sum_insured : forall k p, In (k, p) (policyholders (manager w)) ->
    float_le_0 (Policyholder.sum_insured p) = false;
  ok_date : forall k c, In (k, c) (claims (manager w)) ->
    exists o, claim_day c = Some o;
  ok_file : data_file w = None /\ manager w = init None
            \/ data_file w = Some (save_data (manager w))
}.

(** ** High risk *)


Definition total (v : cpython) (self : t) (policyholder_id : string) : number :=
  builtin_sum v (map Claim.claim_amount
                     (get_claims_by_policyholder self policyholder_id)).





(** ** Aggregates by policy type *)

Definition policy_type_of (self : t) (claim : Claim.t) : string :=
  match dict_get (policyholders self) (Claim.policyholder_id claim) with
  | Some p => Policyholder.policy_type p
  | None => ""
  end.

Definition of_type (self : t) (policy_type : string) (cs : list Claim.t)
  : list Claim.t :=
  filter (fun c => String.eqb (policy_type_of self c) policy_type) cs.

(** The amounts added from left to right, from the integer [0]. *)
Definition amount_total (cs : list Claim.t) : number :=
  fold_left py_add (map (fun c => Float (Claim.claim_amount c)) cs) (Int 0).

Definition count (cs : list Claim.t) : Z := Z.of_nat (List.length cs).

Definition with_status (s : string) (cs : list Claim.t) : list Claim.t :=
  filter (fun c => String.eqb (lower (Claim.status c)) s) cs.

Definition recognized (claim : Claim.t) : bool :=
  let s := lower (Claim.status claim) in
  String.eqb s "pending" || String.eqb s "approved" || String.eqb s "rejected".

Definition aggregate (cs : list Claim.t) : dict number :=
  [("count", Int (count cs));
   ("total_amount", amount_total cs);
   ("pending", Int (count (with_status "pending" cs)));
   ("approved", Int (count (with_status "approved" cs)));
   ("rejected", Int (count (with_status "rejected" cs)))].

Definition average (cs : list Claim.t) : float :=
  fdiv (to_float (amount_total cs)) (float_of_Z (count cs)).

(** What a dictionary keyed by policy type holds after the claims [done]:
    for each type with a claim, [f] of its claims. *)
Definition grouped {V : Type} (self : t) (f : list Claim.t -> V)
           (done : list Claim.t) (d : dict V) : Prop :=
  dict_wf d = true
  /\ forall pt, dict_get d pt = match of_type self pt done with
                                | [] => None
                                | cs => Some (f cs)
                                end.

(** ** What every session keeps, whatever the clock reads *)

Definition valid_policyholder (p : Policyholder.t) : bool :=
  negb (String.eqb (Policyholder.name p) "")
  && (0 <? Policyholder.age p)
  && negb (float_le_0 (Policyholder.sum_insured p)).

Definition valid_claim (c : Claim.t) : bool :=
  negb (float_le_0 (Claim.claim_amount c)).

Record store_kept (w : world) : Prop := {
  kept_policyholders : dict_wf (policyholders (manager w)) = true;
  kept_claims : dict_wf (claims (manager w)) = true;
  kept_reference : forall k c, In (k, c) (claims (manager w)) ->
    dict_contains (policyholders (manager w)) (Claim.policyholder_id c) = true;
  kept_policyholder_id : forall k p, In (k, p) (policyholders (manager w)) ->
    Policyholder.id p = k;
  kept_claim_id : forall k c, In (k, c) (claims (manager w)) -> Claim.id c = k;
  kept_valid_policyholder : forall k p, In (k, p) (policyholders (manager w)) ->
    valid_policyholder p = true;
  kept_valid_claim : forall k c, In (k, c) (claims (manager w)) ->
    valid_claim c = true;
  kept_file : data_file w = None /\ manager w = init None
              \/ data_file w = Some (save_data (manager w))
}.

(** The claims of a store are dated by [add_claim] at system times. *)
Definition store_dated (w : world) : Prop :=
  forall k c, In (k, c) (claims (manager w)) ->
    exists t, system_time t = true /\ Claim.date_of_claim c = strftime_ymd t.

(** ** Reports *)

Definition is_pending (claim : Claim.t) : bool :=
  String.eqb (lower (Claim.status claim)) "pending".

(** The month [get_monthly_claims] files a claim under. *)
Definition month_of (claim : Claim.t) : string :=
  match strptime_ymd (Claim.date_of_claim claim) with
  | Ok d => strftime_ym d
  | Raise _ => ""
  end.

Definition in_month (month : string) (cs : list Claim.t) : list Claim.t :=
  filter (fun c => String.eqb (month_of c) month) cs.

Definition sumZ (l : list Z) : Z := fold_left Z.add l 0.

(** What a dictionary of counts keyed by month holds after the claims
    [done]. *)
Definition counted_by_month (done : list Claim.t) (d : dict Z) : Prop :=
  dict_wf d = true
  /\ sumZ (dict_values d) = Z.of_nat (List.length done)
  /\ forall month, dict_get d month = match in_month month done with
                                      | [] => None
                                      | cs => Some (Z.of_nat (List.length cs))
                                      end.

Definition has_date (claim : Claim.t) : bool :=
  match claim_day claim with
  | Some _ => true
  | None => false
  end.

Definition is_object (j : json) : bool :=
  match j with
  | JObject _ => true
  | _ => false
  end.

(** ** Behaviour on any store *)

(** The policyholder of a claim is in the store. *)
Definition resolves (self : t) (claim : Claim.t) : bool :=
  dict_contains (policyholders self) (Claim.policyholder_id claim).



(** The sum insured is [0.0] or [-0.0]. *)
Definition zero_insured (item : string * Policyholder.t) : bool :=
  fzero (Policyholder.sum_insured (snd item)).

(** Two claims that differ at most in their status. *)
Definition same_but_status (a b : Claim.t) : Prop :=
  Claim.set_status a "" = Claim.set_status b "".

(** Two JSON objects that are equal as mappings. *)
Definition same_mapping (a b : list (string * json)) : Prop :=
  forall k, dict_get a k = dict_get b k.

Definition object_items (j : json) : list (string * json) :=
  match j with
  | JObject items => items
  | _ => []
  end.
End Spec.

(** ** Sessions of the examples *)

Module Examples.
Import Session.

(** 2021-07-29 at noon, and the same time of day 365 days later. *)
Definition noon : datetime := {| ordinal := 738000; micros := 43200000000 |}.

(** A policyholder insured for 10000 with claims of 3000, 4000 and 5000. *)
Definition scenario : session :=
  [AddPolicyholder "P" 40 "Health" (float_of_Z 10000) "p1";
   AddClaim "p1" (float_of_Z 3000) "surgery" "Approved" "c1" noon;
   AddClaim "p1" (float_of_Z 4000) "therapy" "Approved" "c2" noon;
   AddClaim "p1" (float_of_Z 5000) "checkup" "Approved" "c3" noon].

(** Two claims of 100 and 300 on a health policy. *)
Definition two_health : session :=
  [AddPolicyholder "Q" 35 "Health" (float_of_Z 10000) "p1";
   AddClaim "p1" (float_of_Z 100) "visit" "Pending" "c1" noon;
   AddClaim "p1" (float_of_Z 300) "visit" "Approved" "c2" noon].

(** A claim whose amount is NaN, which [add_claim] accepts since
    [nan <= 0] is false, followed by a claim of 5. *)
Definition nan_first : session :=
  [AddPolicyholder "R" 50 "Life" (float_of_Z 10000) "p1";
   AddClaim "p1" S754_nan "a" "Pending" "c1" noon;
   AddClaim "p1" (float_of_Z 5) "b" "Pending" "c2" noon].

(** A claim whose status is set to a string outside the three. *)
Definition unknown_status : session :=
  [AddPolicyholder "S" 28 "Vehicle" (float_of_Z 10000) "p1";
   AddClaim "p1" (float_of_Z 100) "crash" "Pending" "c1" noon;
   UpdateClaimStatus "c1" "Bogus"].

(** Four claims of 100 on a policy insured for 10000, and a policyholder
    with two claims of 500. *)
Definition frequent : session :=
  [AddPolicyholder "V" 61 "Vehicle" (float_of_Z 10000) "p1";
   AddPolicyholder "W" 23 "Life" (float_of_Z 10000) "p2";
   AddClaim "p1" (float_of_Z 100) "a" "Pending" "c1" noon;
   AddClaim "p1" (float_of_Z 100) "b" "Pending" "c2" noon;
   AddClaim "p2" (float_of_Z 500) "c" "Rejected" "c3" noon;
   AddClaim "p1" (float_of_Z 100) "d" "Pending" "c4" noon;
   AddClaim "p1" (float_of_Z 100) "e" "Pending" "c5" noon;
   AddClaim "p2" (float_of_Z 500) "f" "Approved" "c6" noon].


(** A store, as a file edited by hand can give it, with a policyholder
    insured for nothing. *)
Definition uninsured_store : InsuranceDataManager.t :=
  {| InsuranceDataManager.policyholders :=
       [("p1", {| Policyholder.id := "p1"; Policyholder.name := "T";
                  Policyholder.age := 30; Policyholder.policy_type := "Life";
                  Policyholder.sum_insured := S754_zero false |})];
     InsuranceDataManager.claims := [] |}.
End Examples.

(* ================================================================= *)
(** * Facts on dictionaries *)

Section DictFacts.
Context {V : Type}.
Implicit Types (d : dict V) (k : string) (v : V).

Lemma dict_get_set_same d k v : dict_get (dict_set d k v) k = Some v.
Proof.
  induction d as [|[k' v'] r IH]; simpl.
  - now rewrite String.eqb_refl.
  - destruct (String.eqb k' k) eqn:E; simpl; rewrite E; auto.
Qed.

Lemma dict_get_set_other d k v k' :
  k' <> k -> dict_get (dict_set d k v) k' = dict_get d k'.
Proof.
  intros N. induction d as [|[k0 v0] r IH]; simpl.
  - destruct (String.eqb_spec k k'); congruence.
  - destruct (String.eqb_spec k0 k); simpl.
    + subst k0. destruct (String.eqb_spec k k'); congruence.
    + now rewrite IH.
Qed.

Lemma dict_contains_set d k v k' :
  dict_contains (dict_set d k v) k' = String.eqb k k' || dict_contains d k'.
Proof.
  unfold dict_contains. destruct (String.eqb_spec k k') as [->|N].
  - now rewrite dict_get_set_same.
  - rewrite dict_get_set_other by congruence. reflexivity.
Qed.

Lemma dict_get_In d k v : dict_get d k = Some v -> In (k, v) d.
Proof.
  induction d as [|[k' v'] r IH]; simpl; [discriminate|].
  destruct (String.eqb_spec k' k); intros H.
  - inversion H; subst; auto.
  - auto.
Qed.

Lemma dict_get_None d k : dict_get d k = None <-> ~ In k (dict_keys d).
Proof.
  induction d as [|[k' v'] r IH]; simpl; [tauto|].
  destruct (String.eqb_spec k' k); [|tauto].
  split; [discriminate | intros H; exfalso; auto].
Qed.

Lemma dict_contains_In d k : dict_contains d k = true <-> In k (dict_keys d).
Proof.
  unfold dict_contains. destruct (dict_get d k) eqn:E.
  - split; auto. intros _. apply dict_get_In in E.
    apply (in_map fst) in E. exact E.
  - apply dict_get_None in E. split; [discriminate | tauto].
Qed.

Lemma dict_set_fresh d k v : dict_get d k = None -> dict_set d k v = d ++ [(k, v)].
Proof.
  induction d as [|[k' v'] r IH]; simpl; auto.
  destruct (String.eqb k' k); [discriminate|]. intros H. now rewrite IH.
Qed.

Lemma dict_keys_set d k v :
  dict_keys (dict_set d k v)
  = if dict_contains d k then dict_keys d else dict_keys d ++ [k].
Proof.
  unfold dict_contains.
  induction d as [|[k' v'] r IH]; simpl; auto.
  destruct (String.eqb_spec k' k); simpl; auto.
  rewrite IH. destruct (dict_get r k); reflexivity.
Qed.

Lemma In_dict_set d k v k' v' :
  In (k', v') (dict_set d k v) -> (k' = k /\ v' = v) \/ In (k', v') d.
Proof.
  induction d as [|[k0 v0] r IH]; simpl.
  - intros [H|[]]. inversion H; auto.
  - destruct (String.eqb_spec k0 k); simpl.
    + intros [H|H]; [inversion H; subst; auto | auto].
    + intros [H|H]; auto. destruct (IH H); auto.
Qed.
End DictFacts.

Lemma unique_NoDup ks : unique ks = true <-> NoDup ks.
Proof.
  induction ks as [|k r IH]; simpl.
  - split; [constructor | reflexivity].
  - rewrite andb_true_iff, negb_true_iff, IH. split.
    + intros [E N]. constructor; auto. intros I.
      assert (existsb (String.eqb k) r = true) as X; [|congruence].
      apply existsb_exists. exists k. split; auto. apply String.eqb_refl.
    + intros N. inversion N; subst. split; auto.
      destruct (existsb (String.eqb k) r) eqn:E; auto.
      apply existsb_exists in E. destruct E as [x [I E]].
      apply String.eqb_eq in E. subst. contradiction.
Qed.

Lemma dict_wf_set {V : Type} (d : dict V) k v :
  dict_wf d = true -> dict_wf (dict_set d k v) = true.
Proof.
  unfold dict_wf. rewrite !unique_NoDup, dict_keys_set. intros N.
  destruct (dict_contains d k) eqn:E; auto.
  apply NoDup_app; auto.
  - repeat constructor. simpl. tauto.
  - intros x I [<-|[]]. apply dict_contains_In in I. congruence.
Qed.

Lemma dict_wf_In_get {V : Type} (d : dict V) k v :
  dict_wf d = true -> In (k, v) d -> dict_get d k = Some v.
Proof.
  unfold dict_wf. rewrite unique_NoDup.
  induction d as [|[k' v'] r IH]; simpl; [tauto|].
  intros N [H|H].
  - inversion H; subst. now rewrite String.eqb_refl.
  - inversion N; subst. destruct (String.eqb_spec k' k).
    + subst. exfalso. apply H2. apply (in_map fst) in H. exact H.
    + auto.
Qed.

(** * Facts on loops *)

Lemma for_each_app {A S : Type} (xs ys : list A) (body : S -> A -> result S) s :
  for_each (xs ++ ys) body s = (s' <- for_each xs body s ;; for_each ys body s').
Proof.
  revert s. induction xs as [|x r IH]; simpl; intros s; auto.
  destruct (body s x); simpl; auto.
Qed.


Lemma flt_key x y :
  is_nan x = false -> is_nan y = false ->
  (flt x y = true <-> key_lt (order_key x) (order_key y)).
Proof.
  unfold flt, SFltb, SFcompare, key_lt, order_key.
  destruct x as [s| s | |s m e], y as [s'|s'| |s' m' e']; try discriminate;
    intros _ _; try destruct s; try destruct s'; simpl; compare_cases;
    simpl; split; intro; try reflexivity; try discriminate; try lia.
Qed.

Lemma fle_key x y :
  is_nan x = false -> is_nan y = false ->
  (fle x y = true <-> key_le (order_key x) (order_key y)).
Proof.
  unfold fle, SFleb, SFcompare, key_le, order_key.
  destruct x as [s| s | |s m e], y as [s'|s'| |s' m' e']; try discriminate;
    intros _ _; try destruct s; try destruct s'; simpl; compare_cases;
    simpl; split; intro; try reflexivity; try discriminate; try lia.
Qed.

Lemma flt_false_fle x y :
  is_nan x = false -> is_nan y = false -> flt x y = false -> fle y x = true.
Proof.
  intros Nx Ny H. apply fle_key; auto.
  assert (~ key_lt (order_key x) (order_key y)) as K.
  { rewrite <- flt_key by auto. congruence. }
  unfold key_lt, key_le in *.
  destruct (order_key x) as [[a1 a2] a3], (order_key y) as [[b1 b2] b3]. lia.
Qed.

Lemma fle_refl x : is_nan x = false -> fle x x = true.
Proof.
  intros N. apply fle_key; auto. unfold key_le.
  destruct (order_key x) as [[a1 a2] a3]. lia.
Qed.

Lemma flt_fle x y : flt x y = true -> fle x y = true.
Proof.
  unfold flt, fle, SFltb, SFleb. destruct (SFcompare x y) as [[]|]; auto.
Qed.

Lemma fle_trans x y z :
  is_nan x = false -> is_nan y = false -> is_nan z = false ->
  fle x y = true -> fle y z = true -> fle x z = true.
Proof.
  intros Nx Ny Nz. rewrite !fle_key by auto. unfold key_le.
  destruct (order_key x) as [[a1 a2] a3], (order_key y) as [[b1 b2] b3],
           (order_key z) as [[c1 c2] c3]. lia.
Qed.

Lemma flt_fle_trans x y z :
  is_nan x = false -> is_nan y = false -> is_nan z = false ->
  flt x y = true -> fle y z = true -> flt x z = true.
Proof.
  intros Nx Ny Nz. rewrite !flt_key, fle_key by auto. unfold key_le, key_lt.
  destruct (order_key x) as [[a1 a2] a3], (order_key y) as [[b1 b2] b3],
           (order_key z) as [[c1 c2] c3]. lia.
Qed.

Lemma fle_flt_trans x y z :
  is_nan x = false -> is_nan y = false -> is_nan z = false ->
  fle x y = true -> flt y z = true -> flt x z = true.
Proof.
  intros Nx Ny Nz. rewrite !flt_key, fle_key by auto. unfold key_le, key_lt.
  destruct (order_key x) as [[a1 a2] a3], (order_key y) as [[b1 b2] b3],
           (order_key z) as [[c1 c2] c3]. lia.
Qed.


Lemma forall_below_spec k p :
  forall_below k p = true -> forall n, 0 <= n < Z.of_nat k -> p n = true.
Proof.
  induction k as [|k IH]; simpl; intros H n Hn; [lia|].
  apply andb_true_iff in H. destruct H as [H1 H2].
  destruct (Z.eq_dec n (Z.of_nat k)) as [->|N]; auto.
  apply IH; auto. lia.
Qed.

Lemma month_day_spec leapyear n m d :
  0 <= n < 365 -> month_day leapyear n = (m, d) ->
  1 <= m <= 12 /\ 1 <= d
  /\ d <= (if (m =? 2) && leapyear then 29 else nth (Z.to_nat m) DAYS_IN_MONTH 0)
  /\ nth (Z.to_nat m) DAYS_BEFORE_MONTH 0
     + (if (2 <? m) && leapyear then 1 else 0) + d = n + 1.
Proof.
  intros Hn E.
  assert (forall_below 365 (month_day_check leapyear) = true) as C
    by (destruct leapyear; vm_compute; reflexivity).
  pose proof (forall_below_spec _ _ C n ltac:(simpl; lia)) as P.
  unfold month_day_check in P. rewrite E in P.
  rewrite !andb_true_iff in P.
  destruct P as [[[[P1 P2] P3] P4] P5].
  apply Z.leb_le in P1, P2, P3, P4. apply Z.eqb_eq in P5. lia.
Qed.

Lemma is_leap_cycle a b c d :
  0 <= a -> 0 <= b <= 3 -> 0 <= c <= 24 -> 0 <= d <= 3 ->
  is_leap (a * 400 + 1 + b * 100 + c * 4 + d)
  = (d =? 3) && (negb (c =? 24) || (b =? 3)).
Proof.
  intros. unfold is_leap.
  repeat match goal with
  | |- context [?x =? ?y] => destruct (Z.eqb_spec x y)
  end; simpl; try reflexivity; exfalso; Z.div_mod_to_equations; lia.
Qed.

Lemma days_before_year_cycle a b c d :
  0 <= a -> 0 <= b <= 3 -> 0 <= c <= 24 -> 0 <= d <= 3 ->
  days_before_year (a * 400 + 1 + b * 100 + c * 4 + d)
  = a * 146097 + b * 36524 + c * 1461 + d * 365.
Proof.
  intros. unfold days_before_year. cbv zeta. Z.div_mod_to_equations. lia.
Qed.

Lemma ord2ymd_spec n y m d :
  1 <= n -> ord2ymd n = (y, m, d) ->
  ymd2ord y m d = n /\ 1 <= m <= 12 /\ 1 <= d <= days_in_month y m
  /\ 1 <= y /\ (n <= MAXORDINAL -> y <= 9999).
Proof.
  intros Hn. unfold ord2ymd, MAXORDINAL. cbv zeta.
  set (a := (n - 1) / 146097).
  set (r := (n - 1) mod 146097).
  set (b := r / 36524). set (r' := r mod 36524).
  set (c := r' / 1461). set (r'' := r' mod 1461).
  set (e := r'' / 365). set (f := r'' mod 365).
  assert (n - 1 = 146097 * a + r /\ 0 <= r < 146097 /\ 0 <= a) as (Ea & Hr & Ha)
    by (subst a r; Z.div_mod_to_equations; lia).
  assert (r = 36524 * b + r' /\ 0 <= r' < 36524 /\ 0 <= b <= 4) as (Eb & Hr' & Hb)
    by (subst b r'; Z.div_mod_to_equations; lia).
  assert (r' = 1461 * c + r'' /\ 0 <= r'' < 1461 /\ 0 <= c <= 24) as (Ec & Hr'' & Hc)
    by (subst c r''; Z.div_mod_to_equations; lia).
  assert (r'' = 365 * e + f /\ 0 <= f < 365 /\ 0 <= e <= 4) as (Ee & Hf & He)
    by (subst e f; Z.div_mod_to_equations; lia).
  clearbody a r b r' c r'' e f.
  destruct (Z.eqb_spec e 4) as [E4|E4]; simpl orb.
  - intros X. inversion X; subst y m d. clear X.
    replace (a * 400 + 1 + b * 100 + c * 4 + e - 1)
      with (a * 400 + 1 + b * 100 + c * 4 + 3) by lia.
    unfold ymd2ord, days_in_month, days_before_month.
    rewrite is_leap_cycle, days_before_year_cycle by lia.
    simpl. repeat match goal with
    | |- context [?x =? ?y] => destruct (Z.eqb_spec x y)
    end; simpl; lia.
  - destruct (Z.eqb_spec b 4) as [B4|B4].
    + intros X. inversion X; subst y m d. clear X.
      replace (a * 400 + 1 + b * 100 + c * 4 + e - 1)
        with (a * 400 + 1 + 3 * 100 + 24 * 4 + 3) by lia.
      unfold ymd2ord, days_in_month, days_before_month.
      rewrite is_leap_cycle, days_before_year_cycle by lia.
      simpl. lia.
    + destruct (month_day _ f) as [mm dd] eqn:M.
      intros X. inversion X; subst y m d. clear X.
      apply month_day_spec in M; [|lia].
      unfold ymd2ord, days_in_month, days_before_month.
      rewrite is_leap_cycle, days_before_year_cycle by lia.
      destruct M as (M1 & M2 & M3 & M4). lia.
Qed.

Lemma days_in_month_le y m : days_in_month y m <= 31.
Proof.
  unfold days_in_month. destruct ((m =? 2) && is_leap y); [lia|].
  destruct (Z.to_nat m) as [|[|[|[|[|[|[|[|[|[|[|[|[|k]]]]]]]]]]]]];
    simpl; try lia. destruct k; lia.
Qed.

Lemma digit_spec k :
  0 <= k <= 9 -> digit_value (digit k) = k /\ char_between "0" "9" (digit k) = true.
Proof.
  intros Hk.
  assert (forall_below 10
            (fun k => (digit_value (digit k) =? k) && char_between "0" "9" (digit k))
          = true) as C by (vm_compute; reflexivity).
  pose proof (forall_below_spec _ _ C k ltac:(simpl; lia)) as P. cbv beta in P.
  apply andb_true_iff in P. destruct P as [P1 P2].
  apply Z.eqb_eq in P1. auto.
Qed.

Lemma match_month_pad2 m r :
  1 <= m <= 12 ->
  match_month (pad2 m ++ String "-" r)%string = Some (m, String "-" r).
Proof.
  intros Hm.
  assert (m = 1 \/ m = 2 \/ m = 3 \/ m = 4 \/ m = 5 \/ m = 6 \/ m = 7 \/ m = 8
          \/ m = 9 \/ m = 10 \/ m = 11 \/ m = 12) as C by lia.
  repeat (destruct C as [C|C]; [subst m; reflexivity|]). subst m; reflexivity.
Qed.

Lemma match_day_pad2 d :
  1 <= d <= 31 -> match_day (pad2 d) = Some (d, EmptyString).
Proof.
  intros Hd.
  assert (forall_below 32
            (fun d => (d =? 0) ||
               match match_day (pad2 d) with
               | Some (d', EmptyString) => d' =? d
               | _ => false
               end) = true) as C by (vm_compute; reflexivity).
  pose proof (forall_below_spec _ _ C d ltac:(simpl; lia)) as P. cbv beta in P.
  destruct (Z.eqb_spec d 0); [lia|]. cbn [orb] in P.
  destruct (match_day (pad2 d)) as [[d' [|]]|]; try discriminate.
  apply Z.eqb_eq in P. now subst.
Qed.

Lemma strptime_strftime t :
  1 <= ordinal t <= MAXORDINAL ->
  strptime_ymd (strftime_ymd t) = Ok {| ordinal := ordinal t; micros := 0 |}.
Proof.
  intros [H1 H2]. unfold strftime_ymd.
  destruct (ord2ymd (ordinal t)) as [[y m] d] eqn:E.
  apply ord2ymd_spec in E; auto.
  destruct E as (E & Hm & Hd & Hy1 & Hy2). specialize (Hy2 H2).
  pose proof (days_in_month_le y m) as Hle.
  unfold pad4. cbn [append]. unfold strptime_ymd, match_format. cbv beta iota.
  destruct (digit_spec (y / 1000)) as [V1 B1]; [Z.div_mod_to_equations; lia|].
  destruct (digit_spec (y / 100 mod 10)) as [V2 B2]; [Z.div_mod_to_equations; lia|].
  destruct (digit_spec (y / 10 mod 10)) as [V3 B3]; [Z.div_mod_to_equations; lia|].
  destruct (digit_spec (y mod 10)) as [V4 B4]; [Z.div_mod_to_equations; lia|].
  rewrite B1, B2, B3, B4, V1, V2, V3, V4. cbn [andb].
  rewrite match_month_pad2 by lia. rewrite match_day_pad2 by lia.
  replace (1000 * (y / 1000) + 100 * (y / 100 mod 10) + 10 * (y / 10 mod 10) + y mod 10)
    with y by (Z.div_mod_to_equations; lia).
  cbn [bind].
  destruct (Z.leb_spec 1 y); [|lia].
  destruct (Z.leb_spec d (days_in_month y m)); [|lia].
  cbn [andb]. now rewrite E.
Qed.

Lemma strptime_midnight s d : strptime_ymd s = Ok d -> micros d = 0.
Proof.
  unfold strptime_ymd. destruct (match_format s) as [[[y m] dd]|e]; simpl;
    [|discriminate].
  destruct ((1 <=? y) && (dd <=? days_in_month y m)); [|discriminate].
  intros H. inversion H. reflexivity.
Qed.

(* ================================================================= *)
(** * The snapshot *)

Lemma Policyholder_from_to_dict p :
  Policyholder.from_dict (Policyholder.to_dict p) = Ok p.
Proof. destruct p; reflexivity. Qed.

Lemma Claim_from_to_dict c : Claim.from_dict (Claim.to_dict c) = Ok c.
Proof. destruct c; reflexivity. Qed.

Section FromItems.
Import InsuranceDataManager.
Context {V : Type} (to_dict : V -> json) (from_dict : json -> result V).
Hypothesis from_to : forall v, from_dict (to_dict v) = Ok v.

Lemma from_items_acc (d acc : dict V) :
  NoDup (dict_keys acc ++ dict_keys d) ->
  for_each (map (fun '(k, v) => (k, to_dict v)) d)
           (fun acc '(k, v) => x <- from_dict v ;; Ok (dict_set acc k x)) acc
  = Ok (acc ++ d).
Proof.
  revert acc. induction d as [|[k v] r IH]; simpl; intros acc N.
  - now rewrite app_nil_r.
  - rewrite from_to. simpl.
    rewrite dict_set_fresh.
    + rewrite IH; [now rewrite <- app_assoc|].
      unfold dict_keys in *. rewrite map_app, <- app_assoc. exact N.
    + apply dict_get_None. apply NoDup_remove_2 in N.
      intros I. apply N. apply in_or_app. auto.
Qed.

Lemma from_items_to_dict (d : dict V) :
  dict_wf d = true ->
  from_items from_dict (map (fun '(k, v) => (k, to_dict v)) d) = Ok d.
Proof.
  intros W. unfold from_items. apply unique_NoDup in W.
  exact (from_items_acc d [] W).
Qed.
End FromItems.

Lemma load_save self before :
  dict_wf (InsuranceDataManager.policyholders self) = true ->
  dict_wf (InsuranceDataManager.claims self) = true ->
  InsuranceDataManager.load_data (Some (InsuranceDataManager.save_data self)) before
  = (self, None).
Proof.
  intros Wp Wc. destruct self as [p c]. simpl in *.
  unfold InsuranceDataManager.load_data, InsuranceDataManager.save_data.
  cbn [InsuranceDataManager.get_items dict_get String.eqb Ascii.eqb Bool.eqb bind
       InsuranceDataManager.policyholders InsuranceDataManager.claims].
  rewrite (from_items_to_dict _ _ Policyholder_from_to_dict) by assumption.
  rewrite (from_items_to_dict _ _ Claim_from_to_dict) by assumption.
  reflexivity.
Qed.

(* ================================================================= *)
(** * What the operations maintain *)

Section Maintained.
Import InsuranceDataManager Session Spec.

Lemma claim_day_strftime now :
  system_time now = true -> 
  strptime_ymd (strftime_ymd now) = Ok {| ordinal := ordinal now; micros := 0 |}.
Proof.
  unfold system_time, EPOCH. rewrite !andb_true_iff.
  intros [[[H1 H2] H3] H4]. apply Z.leb_le in H1, H2.
  apply strptime_strftime. lia.
Qed.

Lemma saved_ok self :
  dict_wf (policyholders self) = true ->
  dict_wf (claims self) = true ->
  (forall k c, In (k, c) (claims self) ->
     dict_contains (policyholders self) (Claim.policyholder_id c) = true) ->
  (forall k p, In (k, p) (policyholders self) ->
     float_le_0 (Policyholder.sum_insured p) = false) ->
  (forall k c, In (k, c) (claims self) -> exists o, claim_day c = Some o) ->
  store_ok (saved self).
Proof. intros. constructor; simpl; auto. Qed.

Lemma add_policyholder_ok name age policy_type sum_insured uuid4 w :
  store_ok w ->
  store_ok (snd (add_policyholder name age policy_type sum_insured uuid4 w)).
Proof.
  intros [W1 W2 R S D F]. unfold add_policyholder.
  destruct (String.eqb name "" || (age <=? 0) || float_le_0 sum_insured) eqn:E;
    [constructor; auto|].
  apply orb_false_iff in E. destruct E as [_ E].
  cbn [snd]. apply saved_ok; simpl; auto.
  - now apply dict_wf_set.
  - intros k c I. rewrite dict_contains_set. rewrite (R k c I). apply orb_true_r.
  - intros k p I. apply In_dict_set in I. destruct I as [[_ ->]|I]; eauto.
Qed.

Lemma add_claim_ok policyholder_id claim_amount reason status uuid4 now w :
  system_time now = true -> store_ok w ->
  store_ok (snd (add_claim policyholder_id claim_amount reason status uuid4 now w)).
Proof.
  intros T [W1 W2 R S D F]. unfold add_claim.
  destruct (dict_contains (policyholders (manager w)) policyholder_id) eqn:C;
    [|constructor; auto].
  cbn [negb]. destruct (float_le_0 claim_amount); [constructor; auto|].
  cbn [snd]. apply saved_ok; simpl; auto.
  - now apply dict_wf_set.
  - intros k c I. apply In_dict_set in I. destruct I as [[_ ->]|I]; eauto.
  - intros k c I. apply In_dict_set in I. destruct I as [[_ ->]|I]; eauto.
    exists (ordinal now). unfold claim_day. simpl.
    now rewrite claim_day_strftime.
Qed.

Lemma update_claim_status_ok claim_id status w :
  store_ok w -> store_ok (snd (update_claim_status claim_id status w)).
Proof.
  intros [W1 W2 R S D F]. unfold update_claim_status.
  destruct (dict_get (claims (manager w)) claim_id) as [c0|] eqn:G;
    [|constructor; auto].
  apply dict_get_In in G.
  cbn [snd]. apply saved_ok; simpl; auto.
  - now apply dict_wf_set.
  - intros k c I. apply In_dict_set in I. destruct I as [[_ ->]|I]; eauto.
    simpl. eauto.
  - intros k c I. apply In_dict_set in I. destruct I as [[_ ->]|I]; eauto.
    unfold claim_day. simpl. exact (D _ _ G).
Qed.

Lemma new_manager_same w :
  store_ok w -> {| manager := init (data_file w); data_file := data_file w |} = w.
Proof.
  intros [W1 W2 R S D F]. destruct w as [m f]. simpl in *. f_equal.
  destruct F as [[Ef Em] | Ef]; rewrite Ef; [now rewrite Em|].
  unfold init. now rewrite load_save.
Qed.

Lemma step_ok w c : clock_ok c = true -> store_ok w -> store_ok (step w c).
Proof.
  intros T O. destruct c; simpl.
  - now apply add_policyholder_ok.
  - now apply add_claim_ok.
  - now apply update_claim_status_ok.
  - now rewrite new_manager_same.
Qed.

Lemma fresh_ok : store_ok fresh.
Proof. constructor; simpl; auto; intros ? ? []. Qed.

Lemma run_from_ok s w :
  session_ok s = true -> store_ok w -> store_ok (fold_left step s w).
Proof.
  revert w. induction s as [|c r IH]; simpl; intros w T O; auto.
  apply andb_true_iff in T. destruct T as [T1 T2].
  apply IH; auto. now apply step_ok.
Qed.

Lemma run_ok s : session_ok s = true -> store_ok (run s).
Proof. intros T. apply run_from_ok; auto. apply fresh_ok. Qed.
End Maintained.

(* ================================================================= *)
(** * The mutating operations *)

Section Operations.
Import InsuranceDataManager Session Spec.

(** C5. [add_policyholder] raises its [ValueError] (the specification's
    ValidationError) exactly when the name is empty, or the age is at most
    0, or the sum insured is at most 0, and then changes nothing; on every
    other input it returns the generated id, and the policyholder map then
    holds under that id a record with exactly the supplied name, age,
    policy type and sum insured. *)
Theorem add_policyholder_spec name age policy_type sum_insured uuid4 w :
  let out := add_policyholder name age policy_type sum_insured uuid4 w in
  let invalid := name = "" \/ age <= 0 \/ float_le_0 sum_insured = true in
  ((exists e, fst out = Raise e) <-> invalid)
  /\ (invalid ->
      out = (Raise (ValueError "Invalid input: Name cannot be empty, age and sum insured must be positive"), w))
  /\ (~ invalid ->
      fst out = Ok uuid4
      /\ dict_get (policyholders (manager (snd out))) uuid4
         = Some {| Policyholder.id := uuid4;
                   Policyholder.name := name;
                   Policyholder.age := age;
                   Policyholder.policy_type := policy_type;
                   Policyholder.sum_insured := sum_insured |}
      /\ (forall k, k <> uuid4 ->
            dict_get (policyholders (manager (snd out))) k
            = dict_get (policyholders (manager w)) k)
      /\ claims (manager (snd out)) = claims (manager w)
      /\ data_file (snd out) = Some (save_data (manager (snd out)))).
Proof.
  cbv zeta. unfold add_policyholder.
  assert ((String.eqb name "" || (age <=? 0) || float_le_0 sum_insured) = true
          <-> name = "" \/ age <= 0 \/ float_le_0 sum_insured = true) as C
    by (rewrite !orb_true_iff, String.eqb_eq, Z.leb_le; tauto).
  destruct (String.eqb name "" || (age <=? 0) || float_le_0 sum_insured);
    cbn [fst snd].
  - assert (name = "" \/ age <= 0 \/ float_le_0 sum_insured = true) as I
      by (apply C; reflexivity).
    split; [split; eauto|]. split; [reflexivity | tauto].
  - assert (~ (name = "" \/ age <= 0 \/ float_le_0 sum_insured = true)) as N
      by (intros I; apply C in I; discriminate).
    split; [split; [intros [e X]; discriminate | tauto]|].
    split; [tauto|]. intros _. simpl. rewrite dict_get_set_same.
    repeat split; auto. intros k Nk. now apply dict_get_set_other.
Qed.

(** C4. [add_claim] raises "Policyholder not found" (NotFoundError)
    exactly when the policyholder id is not a key of the policyholder map,
    whatever the amount; for a known id it raises "Claim amount must be
    positive" (ValidationError) exactly when the amount is at most 0; in
    both cases the store is unchanged.  Otherwise it returns the generated
    id and the claim map holds under it a claim with the supplied fields,
    dated with the current date; the other claims and all policyholders
    are unchanged, and an id that was not in use is added at the end. *)
Theorem add_claim_spec policyholder_id claim_amount reason status uuid4 now w :
  let out := add_claim policyholder_id claim_amount reason status uuid4 now w in
  let known := dict_contains (policyholders (manager w)) policyholder_id in
  let claim := {| Claim.id := uuid4;
                  Claim.policyholder_id := policyholder_id;
                  Claim.claim_amount := claim_amount;
                  Claim.reason := reason;
                  Claim.status := status;
                  Claim.date_of_claim := strftime_ymd now |} in
  (fst out = Raise (ValueError "Policyholder not found") <-> known = false)
  /\ (fst out = Raise (ValueError "Claim amount must be positive")
      <-> known = true /\ float_le_0 claim_amount = true)
  /\ (forall e, fst out = Raise e -> snd out = w)
  /\ (known = true -> float_le_0 claim_amount = false ->
      fst out = Ok uuid4
      /\ dict_get (claims (manager (snd out))) uuid4 = Some claim
      /\ (forall k, k <> uuid4 ->
            dict_get (claims (manager (snd out))) k = dict_get (claims (manager w)) k)
      /\ (dict_contains (claims (manager w)) uuid4 = false ->
            claims (manager (snd out)) = claims (manager w) ++ [(uuid4, claim)])
      /\ policyholders (manager (snd out)) = policyholders (manager w)
      /\ data_file (snd out) = Some (save_data (manager (snd out)))
      /\ (system_time now = true -> claim_day claim = Some (ordinal now))).
Proof.
  cbv zeta. unfold add_claim.
  destruct (dict_contains (policyholders (manager w)) policyholder_id) eqn:K;
    cbn [negb]; [destruct (float_le_0 claim_amount) eqn:A|]; cbn [fst snd];
    repeat split; auto; try discriminate; intros; try discriminate;
    try match goal with H : _ /\ _ |- _ => destruct H; discriminate end.
  - simpl. apply dict_get_set_same.
  - simpl. now apply dict_get_set_other.
  - simpl. apply dict_set_fresh.
    match goal with H : dict_contains _ _ = false |- _ =>
      unfold dict_contains in H;
      destruct (dict_get (claims (manager w)) uuid4); congruence
    end.
  - unfold claim_day. simpl. now rewrite claim_day_strftime.
Qed.

(** C6. [update_claim_status] raises "Claim not found" (NotFoundError)
    exactly when the claim id is not a key of the claim map, and then
    changes nothing.  On a known id it sets the status of that claim to the
    given string, whatever it is, and nothing else: the other fields of the
    claim, its place in the map, every other claim and every policyholder
    are as before. *)
Theorem update_claim_status_spec claim_id status w :
  let out := update_claim_status claim_id status w in
  (fst out = Raise (ValueError "Claim not found")
   <-> dict_contains (claims (manager w)) claim_id = false)
  /\ (forall e, fst out = Raise e -> snd out = w)
  /\ (forall claim, dict_get (claims (manager w)) claim_id = Some claim ->
      fst out = Ok tt
      /\ dict_get (claims (manager (snd out))) claim_id
         = Some {| Claim.id := Claim.id claim;
                   Claim.policyholder_id := Claim.policyholder_id claim;
                   Claim.claim_amount := Claim.claim_amount claim;
                   Claim.reason := Claim.reason claim;
                   Claim.status := status;
                   Claim.date_of_claim := Claim.date_of_claim claim |}
      /\ (forall k, k <> claim_id ->
            dict_get (claims (manager (snd out))) k = dict_get (claims (manager w)) k)
      /\ dict_keys (claims (manager (snd out))) = dict_keys (claims (manager w))
      /\ policyholders (manager (snd out)) = policyholders (manager w)
      /\ data_file (snd out) = Some (save_data (manager (snd out)))).
Proof.
  cbv zeta. unfold update_claim_status, dict_contains.
  destruct (dict_get (claims (manager w)) claim_id) as [c|] eqn:G; cbn [fst snd].
  - split; [split; discriminate|]. split; [discriminate|].
    intros claim E. inversion E; subst claim. simpl.
    split; [reflexivity|]. split; [apply dict_get_set_same|].
    split; [intros k Nk; now apply dict_get_set_other|].
    split; [|auto].
    rewrite dict_keys_set. unfold dict_contains. now rewrite G.
  - split; [split; reflexivity|]. split; [reflexivity|]. discriminate.
Qed.


(** C10. [get_claims_by_policyholder] is a total function of the store and
    of the id: it returns, in the order of the claim map, exactly the
    claims whose [policyholder_id] is the argument; and in every state of
    the store an id that is not a key of the policyholder map gives the
    empty list. *)
Theorem get_claims_by_policyholder_total :
  (forall self policyholder_id,
      exists l, get_claims_by_policyholder self policyholder_id = l
      /\ (forall c, In c l <->
            In c (dict_values (claims self))
            /\ Claim.policyholder_id c = policyholder_id)
      /\ l = filter (fun c => String.eqb (Claim.policyholder_id c) policyholder_id)
                    (dict_values (claims self)))
  /\ (forall s policyholder_id,
      session_ok s = true ->
      dict_contains (policyholders (manager (run s))) policyholder_id = false ->
      get_claims_by_policyholder (manager (run s)) policyholder_id = []).
Proof.
  split.
  - intros self pid. eexists. split; [reflexivity|]. split; [|reflexivity].
    intros c. unfold get_claims_by_policyholder. rewrite filter_In.
    now rewrite String.eqb_eq.
  - intros s pid T U. destruct (run_ok s T) as [_ _ R _ _ _].
    unfold get_claims_by_policyholder.
    destruct (filter _ _) as [|c l] eqn:E; auto.
    assert (In c (c :: l)) as I by (left; reflexivity).
    rewrite <- E in I. apply filter_In in I. destruct I as [I P].
    apply String.eqb_eq in P. unfold dict_values in I.
    apply in_map_iff in I. destruct I as [[k c'] [Ec I]]. simpl in Ec. subst c'.
    apply R in I. congruence.
Qed.
End Operations.

(* ================================================================= *)
(** * Claim frequency and high risk *)

Section Frequency.
Import InsuranceDataManager Session Spec.

Lemma recent_claims_filter now days l :
  0 <= micros now ->
  (forall c, In c l -> exists o, claim_day c = Some o) ->
  recent_claims {| ordinal := ordinal now - days; micros := micros now |} l
  = Ok (filter (in_window now days) l).
Proof.
  intros Hm. induction l as [|c r IH]; simpl; intros P; auto.
  destruct (P c (or_introl eq_refl)) as [o Ho].
  rewrite IH by auto. unfold in_window. rewrite Ho.
  unfold claim_day in Ho.
  destruct (strptime_ymd (Claim.date_of_claim c)) as [d|] eqn:E; [|discriminate].
  inversion Ho; subst o. apply strptime_midnight in E. simpl.
  unfold datetime_ge. simpl. rewrite E.
  replace (micros now <=? 0) with (micros now =? 0)
    by (destruct (Z.eqb_spec (micros now) 0), (Z.leb_spec (micros now) 0); lia || reflexivity).
  reflexivity.
Qed.

Lemma calculate_claim_frequency_filter self policyholder_id days now :
  (forall k c, In (k, c) (claims self) -> exists o, claim_day c = Some o) ->
  0 <= micros now ->
  -999999999 <= days <= 999999999 ->
  1 <= ordinal now - days <= MAXORDINAL ->
  calculate_claim_frequency self policyholder_id days now
  = Ok (Z.of_nat (List.length (filter (in_window now days)
                    (get_claims_by_policyholder self policyholder_id)))).
Proof.
  intros D Hm Hd Hc. unfold calculate_claim_frequency, sub_days.
  destruct (Z.ltb_spec days (-999999999)); [lia|].
  destruct (Z.ltb_spec 999999999 days); [lia|].
  destruct (Z.leb_spec 1 (ordinal now - days)); [|lia].
  destruct (Z.leb_spec (ordinal now - days) MAXORDINAL); [|lia].
  simpl. rewrite recent_claims_filter; auto.
  intros c I. unfold get_claims_by_policyholder in I.
  apply filter_In in I. destruct I as [I _].
  unfold dict_values in I. apply in_map_iff in I.
  destruct I as [[k c'] [E I]]. simpl in E. subst c'. eauto.
Qed.

Lemma system_time_bounds now :
  system_time now = true ->
  EPOCH <= ordinal now <= MAXORDINAL /\ 0 <= micros now < DAY_MICROS.
Proof.
  unfold system_time. rewrite !andb_true_iff.
  intros [[[H1 H2] H3] H4].
  apply Z.leb_le in H1, H2, H3. apply Z.ltb_lt in H4. lia.
Qed.



End Frequency.

(* ================================================================= *)
(** * Aggregates by policy type *)

Section ByPolicyType.
Import InsuranceDataManager Session Spec.
Variable self : InsuranceDataManager.t.

Lemma of_type_snoc pt done c :
  of_type self pt (done ++ [c])
  = of_type self pt done
    ++ (if String.eqb (policy_type_of self c) pt then [c] else []).
Proof. unfold of_type. rewrite filter_app. reflexivity. Qed.

Lemma amount_total_snoc cs c :
  amount_total (cs ++ [c]) = py_add (amount_total cs) (Float (Claim.claim_amount c)).
Proof. unfold amount_total. rewrite map_app, fold_left_app. reflexivity. Qed.

Lemma count_snoc cs (c : Claim.t) : count (cs ++ [c]) = count cs + 1.
Proof. unfold count. rewrite length_app. simpl. lia. Qed.

Lemma with_status_snoc st cs c :
  with_status st (cs ++ [c])
  = with_status st cs ++ (if String.eqb (lower (Claim.status c)) st then [c] else []).
Proof. unfold with_status. rewrite filter_app. reflexivity. Qed.

Lemma snoc_not_nil {A : Type} (l : list A) x : l ++ [x] <> [].
Proof. destruct l; discriminate. Qed.

Lemma of_type_nil_iff pt cs :
  of_type self pt cs = [] <-> ~ exists c, In c cs /\ policy_type_of self c = pt.
Proof.
  unfold of_type. split.
  - intros E [c [I P]].
    assert (In c (filter (fun c => String.eqb (policy_type_of self c) pt) cs)) as X
      by (apply filter_In; split; auto; now apply String.eqb_eq).
    rewrite E in X. exact X.
  - intros N. destruct (filter _ cs) as [|c l] eqn:E; auto.
    exfalso. apply N. exists c.
    assert (In c (c :: l)) as X by (left; reflexivity).
    rewrite <- E in X. apply filter_In in X. destruct X as [X1 X2].
    apply String.eqb_eq in X2. auto.
Qed.

Lemma grouped_nil {V : Type} (f : list Claim.t -> V) : grouped self f [] [].
Proof. split; reflexivity. Qed.

(** Adding a claim of type [pt0] replaces the entry of [pt0]. *)
Lemma grouped_snoc {V : Type} (f : list Claim.t -> V) done d c :
  grouped self f done d ->
  grouped self f (done ++ [c])
          (dict_set d (policy_type_of self c)
                    (f (of_type self (policy_type_of self c) done ++ [c]))).
Proof.
  intros [W G]. split; [now apply dict_wf_set|].
  intros pt. rewrite of_type_snoc.
  destruct (String.eqb_spec (policy_type_of self c) pt) as [<-|N].
  - rewrite dict_get_set_same.
    destruct (of_type self (policy_type_of self c) done ++ [c]) eqn:E; auto.
    now apply snoc_not_nil in E.
  - rewrite dict_get_set_other by congruence. rewrite app_nil_r. apply G.
Qed.

Lemma resolve c :
  dict_contains (policyholders self) (Claim.policyholder_id c) = true ->
  exists p, dict_getitem (policyholders self) (Claim.policyholder_id c) = Ok p
            /\ Policyholder.policy_type p = policy_type_of self c.
Proof.
  unfold dict_contains, dict_getitem, policy_type_of.
  destruct (dict_get (policyholders self) (Claim.policyholder_id c)) as [p|];
    [|discriminate].
  intros _. exists p. auto.
Qed.

(** ** Averages *)

Lemma get_or_0_grouped done d pt (f : list Claim.t -> number) :
  f [] = Int 0 -> grouped self f done d ->
  ReportsGenerator.get_or_0 d pt = f (of_type self pt done).
Proof.
  intros F0 [_ G]. unfold ReportsGenerator.get_or_0. rewrite G.
  destruct (of_type self pt done); auto.
Qed.

Lemma totals_and_counts_loop rest :
  (forall c, In c rest ->
     dict_contains (policyholders self) (Claim.policyholder_id c) = true) ->
  forall done totals counts,
    grouped self amount_total done totals ->
    grouped self (fun cs => Int (count cs)) done counts ->
    exists totals' counts',
      for_each rest
        (fun '(policy_totals, policy_counts) claim =>
           policyholder <- dict_getitem (policyholders self)
                                        (Claim.policyholder_id claim) ;;
           let policy_type := Policyholder.policy_type policyholder in
           Ok (dict_set policy_totals policy_type
                 (py_add (ReportsGenerator.get_or_0 policy_totals policy_type)
                         (Float (Claim.claim_amount claim))),
               dict_set policy_counts policy_type
                 (py_add (ReportsGenerator.get_or_0 policy_counts policy_type) (Int 1))))
        (totals, counts) = Ok (totals', counts')
      /\ grouped self amount_total (done ++ rest) totals'
      /\ grouped self (fun cs => Int (count cs)) (done ++ rest) counts'.
Proof.
  induction rest as [|c r IH]; intros R done totals counts GT GC.
  - exists totals, counts. rewrite app_nil_r. simpl. auto.
  - destruct (resolve c (R c (or_introl eq_refl))) as [p [Ep Et]].
    cbn [for_each]. rewrite Ep. cbn [bind]. rewrite Et.
    rewrite (get_or_0_grouped done totals _ amount_total eq_refl GT).
    rewrite (get_or_0_grouped done counts _ (fun cs => Int (count cs)) eq_refl GC).
    rewrite <- amount_total_snoc.
    replace (py_add (Int (count (of_type self (policy_type_of self c) done))) (Int 1))
      with (Int (count (of_type self (policy_type_of self c) done ++ [c])))
      by (rewrite count_snoc; reflexivity).
    replace (done ++ c :: r) with ((done ++ [c]) ++ r)
      by (rewrite <- app_assoc; reflexivity).
    apply IH.
    + intros c' I. apply R. now right.
    + now apply grouped_snoc.
    + now apply (grouped_snoc (fun cs => Int (count cs))).
Qed.

(** A loop that assigns [g k] to each key [k]. *)
Lemma for_each_assign {V : Type} (ks : list string)
      (body : dict V -> string -> result (dict V)) (g : string -> V) :
  (forall acc k, In k ks -> body acc k = Ok (dict_set acc k (g k))) ->
  forall acc, dict_wf acc = true ->
    exists d, for_each ks body acc = Ok d
              /\ dict_wf d = true
              /\ forall k, dict_get d k
                           = if existsb (String.eqb k) ks then Some (g k)
                             else dict_get acc k.
Proof.
  induction ks as [|k0 r IH]; intros B acc W.
  - exists acc. simpl. auto.
  - cbn [for_each]. rewrite B by (left; reflexivity). cbn [bind].
    destruct (IH (fun acc k I => B acc k (or_intror I))
                 (dict_set acc k0 (g k0)) (dict_wf_set _ _ _ W))
      as [d [E [Wd G]]].
    exists d. split; auto. split; auto.
    intros k. rewrite G. simpl.
    destruct (existsb (String.eqb k) r); [now rewrite orb_true_r|].
    rewrite orb_false_r.
    destruct (String.eqb_spec k k0) as [->|N].
    + apply dict_get_set_same.
    + now apply dict_get_set_other.
Qed.

Lemma count_pos (cs : list Claim.t) : cs <> [] -> 1 <= count cs.
Proof. unfold count. destruct cs; [congruence|]. cbn [List.length]. lia. Qed.

Lemma existsb_keys {V : Type} (d : dict V) k :
  existsb (String.eqb k) (dict_keys d) = dict_contains d k.
Proof.
  unfold dict_contains.
  induction d as [|[k' v] r IH]; simpl; auto.
  rewrite String.eqb_sym. destruct (String.eqb k' k); auto.
Qed.

Lemma average_by_type :
  (forall c, In c (dict_values (claims self)) ->
     dict_contains (policyholders self) (Claim.policyholder_id c) = true) ->
  exists averages,
    ReportsGenerator.get_average_claim_by_policy_type self = Ok averages
    /\ dict_wf averages = true
    /\ forall pt,
        dict_get averages pt
        = match of_type self pt (dict_values (claims self)) with
          | [] => None
          | cs => Some (average cs)
          end.
Proof.
  intros R. unfold ReportsGenerator.get_average_claim_by_policy_type,
    ReportsGenerator.totals_and_counts.
  destruct (totals_and_counts_loop _ R [] [] [] (grouped_nil _) (grouped_nil _))
    as [totals [counts [E [GT GC]]]].
  simpl app in GT, GC.
  match goal with
  | |- context [bind (for_each ?xs ?b ?i)] =>
      replace (for_each xs b i) with (Ok (A := dict number * dict number) (totals, counts))
        by (symmetry; exact E)
  end.
  cbn [bind].
  destruct GT as [WT GT], GC as [WC GC].
  destruct (for_each_assign (dict_keys totals)
             (fun averages policy_type =>
                total <- dict_getitem totals policy_type ;;
                count <- dict_getitem counts policy_type ;;
                average <- py_truediv total count ;;
                Ok (dict_set averages policy_type average))
             (fun pt => average (of_type self pt (dict_values (claims self)))))
    with (acc := @nil (string * float)) as [d [Ed [Wd Gd]]]; auto.
  - intros acc k I. apply dict_contains_In in I. unfold dict_contains in I.
    unfold dict_getitem. rewrite GT in *. rewrite GC.
    destruct (of_type self k (dict_values (claims self))) as [|c cs] eqn:Ek;
      [discriminate|].
    cbn [bind]. unfold py_truediv.
    pose proof (count_pos (c :: cs) ltac:(discriminate)) as P.
    cbn [number_is_zero]. destruct (Z.eqb_spec (count (c :: cs)) 0); [lia|].
    reflexivity.
  - exists d. split; auto. split; auto.
    intros pt. rewrite Gd, existsb_keys. unfold dict_contains. rewrite GT.
    destruct (of_type self pt (dict_values (claims self))); reflexivity.
Qed.
(** ** Counts, totals and status counts *)

Lemma dict_set_set {V : Type} (d : dict V) k v v' :
  dict_set (dict_set d k v) k v' = dict_set d k v'.
Proof.
  induction d as [|[k0 v0] r IH]; simpl.
  - now rewrite String.eqb_refl.
  - destruct (String.eqb k0 k) eqn:E; simpl; rewrite E; [reflexivity|].
    now rewrite IH.
Qed.

Lemma increment_entry policy_claims pt key delta entry old :
  dict_get policy_claims pt = Some entry ->
  dict_get entry key = Some old ->
  RiskAnalyzer.increment policy_claims pt key delta
  = Ok (dict_set policy_claims pt (dict_set entry key (py_add old delta))).
Proof.
  intros E1 E2. unfold RiskAnalyzer.increment, dict_getitem.
  rewrite E1. cbn [bind]. rewrite E2. reflexivity.
Qed.

Lemma recognized_cases c :
  recognized c = true ->
  lower (Claim.status c) = "pending" \/ lower (Claim.status c) = "approved"
  \/ lower (Claim.status c) = "rejected".
Proof.
  unfold recognized. rewrite !orb_true_iff, !String.eqb_eq. tauto.
Qed.

(** The three increments on the entry of a type turn the aggregate of its
    claims into the aggregate with the new claim. *)
Lemma aggregate_snoc cs c :
  recognized c = true ->
  exists e1 e2 old,
    e1 = dict_set (aggregate cs) "count" (py_add (Int (count cs)) (Int 1))
    /\ dict_get e1 "total_amount" = Some (amount_total cs)
    /\ e2 = dict_set e1 "total_amount"
                     (py_add (amount_total cs) (Float (Claim.claim_amount c)))
    /\ dict_get e2 (lower (Claim.status c)) = Some old
    /\ dict_set e2 (lower (Claim.status c)) (py_add old (Int 1))
       = aggregate (cs ++ [c]).
Proof.
  intros S. unfold aggregate.
  rewrite !with_status_snoc, amount_total_snoc, count_snoc.
  destruct (recognized_cases c S) as [E|[E|E]]; rewrite E;
    do 2 eexists; eexists; (split; [reflexivity|]); cbn [dict_set dict_get String.eqb Ascii.eqb Bool.eqb andb];
    (split; [reflexivity|]); (split; [reflexivity|]);
    (split; [reflexivity|]); rewrite ?count_snoc, ?app_nil_r; reflexivity.
Qed.

Lemma claims_by_policy_type_loop rest :
  (forall c, In c rest ->
     dict_contains (policyholders self) (Claim.policyholder_id c) = true
     /\ recognized c = true) ->
  forall done policy_claims,
    grouped self aggregate done policy_claims ->
    exists policy_claims',
      for_each rest
        (fun policy_claims claim =>
           policyholder <- dict_getitem (policyholders self)
                                        (Claim.policyholder_id claim) ;;
           let policy_type := Policyholder.policy_type policyholder in
           let policy_claims :=
             if negb (dict_contains policy_claims policy_type)
             then dict_set policy_claims policy_type RiskAnalyzer.new_entry
             else policy_claims in
           policy_claims <- RiskAnalyzer.increment policy_claims policy_type
                              "count" (Int 1) ;;
           policy_claims <- RiskAnalyzer.increment policy_claims policy_type
                              "total_amount" (Float (Claim.claim_amount claim)) ;;
           RiskAnalyzer.increment policy_claims policy_type
                                  (lower (Claim.status claim)) (Int 1))
        policy_claims = Ok policy_claims'
      /\ grouped self aggregate (done ++ rest) policy_claims'.
Proof.
  induction rest as [|c r IH]; intros R done P G.
  - exists P. rewrite app_nil_r. simpl. auto.
  - destruct (R c (or_introl eq_refl)) as [Rc Sc].
    destruct (resolve c Rc) as [p [Ep Et]].
    cbn [for_each]. rewrite Ep. cbn [bind]. rewrite Et. cbv zeta.
    set (pt0 := policy_type_of self c).
    set (cs := of_type self pt0 done).
    destruct (aggregate_snoc cs c Sc) as (e1 & e2 & old & E1 & G1 & E2 & G2 & E3).
    set (P1 := if negb (dict_contains P pt0)
               then dict_set P pt0 RiskAnalyzer.new_entry else P).
    assert (dict_get P1 pt0 = Some (aggregate cs)
            /\ forall v, dict_set P1 pt0 v = dict_set P pt0 v) as [GP1 SP1].
    { subst P1. destruct G as [_ G]. unfold dict_contains.
      specialize (G pt0). fold cs in G. rewrite G.
      destruct cs; cbn [negb].
      - split; [apply dict_get_set_same | intros v; apply dict_set_set].
      - split; [exact G | reflexivity]. }
    rewrite (increment_entry P1 pt0 "count" (Int 1) (aggregate cs) (Int (count cs)) GP1 eq_refl).
    cbn [bind]. rewrite <- E1.
    rewrite (increment_entry _ pt0 "total_amount" _ e1 (amount_total cs)
               (dict_get_set_same _ _ _) G1).
    cbn [bind]. rewrite <- E2.
    rewrite (increment_entry _ pt0 (lower (Claim.status c)) _ e2 old
               (dict_get_set_same _ _ _) G2).
    cbn [bind]. rewrite E3, !dict_set_set, SP1.
    replace (done ++ c :: r) with ((done ++ [c]) ++ r)
      by (rewrite <- app_assoc; reflexivity).
    apply IH.
    + intros c' I. apply R. now right.
    + now apply grouped_snoc.
Qed.

Lemma claims_by_type :
  (forall c, In c (dict_values (claims self)) ->
     dict_contains (policyholders self) (Claim.policyholder_id c) = true
     /\ recognized c = true) ->
  exists policy_claims,
    RiskAnalyzer.get_claims_by_policy_type self = Ok policy_claims
    /\ grouped self aggregate (dict_values (claims self)) policy_claims.
Proof.
  intros R.
  destruct (claims_by_policy_type_loop _ R [] [] (grouped_nil _)) as [P [E G]].
  exists P. split; [exact E | exact G].
Qed.
End ByPolicyType.

(* ================================================================= *)
(** * Reports *)

Section Reports.
Import InsuranceDataManager Session Spec.

Lemma session_resolves s c :
  session_ok s = true ->
  In c (dict_values (claims (manager (run s)))) ->
  dict_contains (policyholders (manager (run s))) (Claim.policyholder_id c) = true.
Proof.
  intros T I. destruct (run_ok s T) as [_ _ R _ _ _].
  unfold dict_values in I. apply in_map_iff in I.
  destruct I as [[k c'] [E I]]. simpl in E. subst c'. eauto.
Qed.

(** C7. In every state of the store in which the status of every claim
    lowers to "pending", "approved" or "rejected",
    [get_claims_by_policy_type] succeeds, and its result maps exactly the
    policy types that have a claim, each to the count of its claims, the
    sum of their amounts and the number of them per lowered status; and
    there is a state of the store with a claim whose status lowers to none
    of the three on which the aggregation raises a [KeyError]. *)
Theorem claims_by_policy_type_spec :
  (forall s,
      session_ok s = true ->
      forallb recognized (dict_values (claims (manager (run s)))) = true ->
      exists policy_claims,
        RiskAnalyzer.get_claims_by_policy_type (manager (run s)) = Ok policy_claims
        /\ dict_wf policy_claims = true
        /\ forall pt,
            dict_get policy_claims pt
            = match of_type (manager (run s)) pt
                            (dict_values (claims (manager (run s)))) with
              | [] => None
              | cs => Some [("count", Int (count cs));
                            ("total_amount", amount_total cs);
                            ("pending", Int (count (with_status "pending" cs)));
                            ("approved", Int (count (with_status "approved" cs)));
                            ("rejected", Int (count (with_status "rejected" cs)))]
              end)
  /\ (exists s,
        session_ok s = true
        /\ (exists c, In c (dict_values (claims (manager (run s))))
                      /\ recognized c = false)
        /\ exists key,
            RiskAnalyzer.get_claims_by_policy_type (manager (run s))
            = Raise (KeyError key)).
Proof.
  split.
  - intros s T S.
    destruct (claims_by_type (manager (run s))) as [P [E [W G]]].
    + intros c I. split; [now apply session_resolves|].
      rewrite forallb_forall in S. now apply S.
    + exists P. repeat split; auto.
  - exists Examples.unknown_status. split; [reflexivity|]. split.
    + eexists. split; [left; reflexivity | reflexivity].
    + exists "bogus". reflexivity.
Qed.

(** C8. In every state of the store [get_average_claim_by_policy_type]
    succeeds: every claim resolves to a policy type through its
    policyholder; the keys of the result are exactly the policy types to
    which a claim resolves; for each the number of its claims is at least
    1, so that the division is defined, and the value is the sum of the
    amounts of its claims, added in the order of the claim map, divided by
    their number.  Two "Health" claims of 100 and 300 give 200. *)
Theorem average_claim_by_policy_type_spec :
  (forall s,
      session_ok s = true ->
      exists averages,
        ReportsGenerator.get_average_claim_by_policy_type (manager (run s))
        = Ok averages
        /\ dict_wf averages = true
        /\ (forall pt,
              dict_contains averages pt = true
              <-> exists c, In c (dict_values (claims (manager (run s))))
                            /\ policy_type_of (manager (run s)) c = pt)
        /\ (forall pt,
              dict_contains averages pt = true ->
              1 <= count (of_type (manager (run s)) pt
                                  (dict_values (claims (manager (run s)))))
              /\ py_truediv
                   (amount_total (of_type (manager (run s)) pt
                                     (dict_values (claims (manager (run s))))))
                   (Int (count (of_type (manager (run s)) pt
                                   (dict_values (claims (manager (run s)))))))
                 = Ok (average (of_type (manager (run s)) pt
                                   (dict_values (claims (manager (run s))))))
              /\ dict_get averages pt
                 = Some (average (of_type (manager (run s)) pt
                                     (dict_values (claims (manager (run s))))))))
  /\ ReportsGenerator.get_average_claim_by_policy_type
       (manager (run Examples.two_health))
     = Ok [("Health", float_of_Z 200)].
Proof.
  split; [|vm_compute; reflexivity].
  intros s T. set (self := manager (run s)).
  destruct (average_by_type self) as [A [E [W G]]].
  { intros c I. now apply session_resolves. }
  exists A. split; auto. split; auto.
  assert (forall pt, dict_contains A pt = true <->
                     of_type self pt (dict_values (claims self)) <> []) as K.
  { intros pt. unfold dict_contains. rewrite G.
    destruct (of_type self pt (dict_values (claims self)));
      split; congruence. }
  split.
  - intros pt. rewrite K. rewrite of_type_nil_iff.
    split.
    + intros N.
      destruct (of_type self pt (dict_values (claims self))) as [|c l] eqn:F.
      * exfalso. apply N. apply of_type_nil_iff. exact F.
      * exists c. assert (In c (c :: l)) as X by (left; reflexivity).
        rewrite <- F in X. apply filter_In in X. destruct X as [X1 X2].
        apply String.eqb_eq in X2. auto.
    + intros X N. exact (N X).
  - intros pt C. apply K in C.
    pose proof (count_pos _ C) as P.
    split; [exact P|]. split.
    + unfold py_truediv, average. cbn [number_is_zero].
      destruct (Z.eqb_spec (count (of_type self pt (dict_values (claims self)))) 0);
        [lia | reflexivity].
    + rewrite G.
      destruct (of_type self pt (dict_values (claims self))); congruence.
Qed.

(** ** The highest claim *)

Lemma max_by_first_maximal {A : Type} (key : A -> float) rest :
  forall before best processed,
    (forall x, In x (before ++ best :: processed ++ rest) ->
               is_nan (key x) = false) ->
    (forall x, In x before -> flt (key x) (key best) = true) ->
    (forall x, In x processed -> fle (key x) (key best) = true) ->
    exists before' after',
      before ++ best :: processed ++ rest
      = before' ++ ReportsGenerator.max_by key best rest :: after'
      /\ (forall x, In x before' ->
            flt (key x) (key (ReportsGenerator.max_by key best rest)) = true)
      /\ (forall x, In x after' ->
            fle (key x) (key (ReportsGenerator.max_by key best rest)) = true).
Proof.
  unfold ReportsGenerator.max_by.
  induction rest as [|y r IH]; intros before best processed N B P.
  - exists before, processed. rewrite app_nil_r. simpl. auto.
  - assert (is_nan (key best) = false) as Nb
      by (apply N; apply in_or_app; right; left; reflexivity).
    assert (is_nan (key y) = false) as Ny
      by (apply N; apply in_or_app; right; right;
          apply in_or_app; right; left; reflexivity).
    assert (forall x, In x before \/ In x processed -> is_nan (key x) = false) as Nx.
    { intros x [I|I]; apply N; apply in_or_app; [now left|].
      right. right. apply in_or_app. now left. }
    cbn [fold_left]. destruct (flt (key best) (key y)) eqn:C.
    + destruct (IH (before ++ best :: processed) y []) as (b' & a' & E & Hb & Ha).
      * intros x I. apply N. rewrite <- app_assoc in I. exact I.
      * intros x I. apply in_app_or in I. destruct I as [I|[<-|I]]; auto.
        -- apply (fle_flt_trans _ (key best)); auto. apply flt_fle. auto.
        -- apply (fle_flt_trans _ (key best)); auto.
      * intros x [].
      * exists b', a'. split; auto. rewrite <- E, <- app_assoc. reflexivity.
    + destruct (IH before best (processed ++ [y])) as (b' & a' & E & Hb & Ha).
      * intros x I. apply N. rewrite <- app_assoc in I. exact I.
      * exact B.
      * intros x I. apply in_app_or in I. destruct I as [I|[<-|[]]]; auto.
        apply flt_false_fle; auto.
      * exists b', a'. split; auto. rewrite <- E, <- app_assoc. reflexivity.
Qed.

(** C9, as the code has it.  [get_highest_claim] returns [None] exactly
    when the claim map is empty.  Otherwise, when no claim amount is NaN,
    it returns a claim whose amount is greater than or equal to the amount
    of every claim, and the first such claim in the order of the map: every
    claim before it has a strictly smaller amount. *)
Theorem highest_claim_spec self :
  (ReportsGenerator.get_highest_claim self = None <-> claims self = [])
  /\ (forallb (fun c => negb (is_nan (Claim.claim_amount c)))
              (dict_values (claims self)) = true ->
      claims self <> [] ->
      exists before highest after,
        ReportsGenerator.get_highest_claim self = Some highest
        /\ dict_values (claims self) = before ++ highest :: after
        /\ (forall c, In c (dict_values (claims self)) ->
              fle (Claim.claim_amount c) (Claim.claim_amount highest) = true)
        /\ (forall c, In c before ->
              flt (Claim.claim_amount c) (Claim.claim_amount highest) = true)).
Proof.
  unfold ReportsGenerator.get_highest_claim, dict_values.
  rewrite forallb_forall.
  destruct (claims self) as [|[k first] rest]; simpl.
  - split; [tauto|]. intros _ N. congruence.
  - split; [split; discriminate|]. intros N' _.
    assert (forall c, first = c \/ In c (map snd rest) ->
                      is_nan (Claim.claim_amount c) = false) as N
      by (intros c I; apply negb_true_iff; now apply N').
    clear N'.
    destruct (max_by_first_maximal Claim.claim_amount (map snd rest) [] first [])
      as (b & a & E & Hb & Ha); simpl; auto; try tauto.
    exists b, (ReportsGenerator.max_by Claim.claim_amount first (map snd rest)), a.
    split; [reflexivity|]. split; [exact E|]. split; [|exact Hb].
    simpl in E.
    assert (forall x, In x (b ++ ReportsGenerator.max_by Claim.claim_amount first
                                   (map snd rest) :: a) ->
                      first = x \/ In x (map snd rest)) as X
      by (intros x I; rewrite <- E in I; exact I).
    intros c I. change (In c (first :: map snd rest)) in I. rewrite E in I.
    apply in_app_or in I. destruct I as [I|[<-|I]].
    + apply flt_fle. auto.
    + apply fle_refl. apply N. apply X. apply in_or_app. right. left. reflexivity.
    + auto.
Qed.
End Reports.

(* ================================================================= *)
(** * Instances and counterexamples *)

Section Instances.
Import InsuranceDataManager Session Spec.

(** The literal 0.8 is the quotient of 8 by 10, rounded. *)
Example f0_8_rounds_8_tenths :
  fdiv (float_of_Z 8) (float_of_Z 10) = f0_8
  /\ valid_binary prec emax f0_8 = true.
Proof. vm_compute. auto. Qed.

Example lower_status : lower "Pending" = "pending" /\ lower "aPPROVED" = "approved".
Proof. vm_compute. auto. Qed.

Example strptime_dates :
  strptime_ymd "2021-07-29" = Ok {| ordinal := 738000; micros := 0 |}
  /\ strptime_ymd "2021-7-9" = Ok {| ordinal := 737980; micros := 0 |}
  /\ strptime_ymd "2021-02-29" = Raise (ValueError "date out of range")
  /\ strptime_ymd "2021-07-29T10" = Raise (ValueError "unconverted data remains")
  /\ strftime_ymd Examples.noon = "2021-07-29".
Proof. vm_compute. repeat split. Qed.

(** The scenario of the specification: the total is 12000 and the ratio
    1.2, the frequency 3 is not above 3, and the only reason is the ratio. *)
Example scenario_high_risk :
  get_high_risk_policyholders Since_3_12 (manager (run Examples.scenario))
                              Examples.noon
  = Ok [{| policyholder :=
             {| Policyholder.id := "p1"; Policyholder.name := "P";
                Policyholder.age := 40; Policyholder.policy_type := "Health";
                Policyholder.sum_insured := float_of_Z 10000 |};
           claim_frequency := 3;
           total_claims := Float (float_of_Z 12000);
           claim_ratio := fdiv (float_of_Z 12) (float_of_Z 10);
           risk_factors := ["High claim ratio: 120.00%"] |}].
Proof. vm_compute. reflexivity. Qed.

(** Four claims in the year with a low ratio: the frequency reason alone;
    two claims and a ratio of 0.1: no record. *)
Example frequent_high_risk :
  map (fun r => (Policyholder.id (policyholder r), claim_frequency r, risk_factors r))
      match get_high_risk_policyholders Before_3_12
              (manager (run Examples.frequent)) Examples.noon with
      | Ok l => l
      | Raise _ => []
      end
  = [("p1", 4, ["High frequency: 4 claims"])].
Proof. vm_compute. reflexivity. Qed.

Example claims_by_policy_type_frequent :
  RiskAnalyzer.get_claims_by_policy_type (manager (run Examples.frequent))
  = Ok [("Vehicle", [("count", Int 4); ("total_amount", Float (float_of_Z 400));
                     ("pending", Int 4); ("approved", Int 0); ("rejected", Int 0)]);
        ("Life", [("count", Int 2); ("total_amount", Float (float_of_Z 1000));
                  ("pending", Int 0); ("approved", Int 1); ("rejected", Int 1)])].
Proof. vm_compute. reflexivity. Qed.

(** The highest of the claims 3000, 4000 and 5000 is the claim of 5000. *)
Example scenario_highest_claim :
  option_map Claim.id (ReportsGenerator.get_highest_claim
                         (manager (run Examples.scenario))) = Some "c3"
  /\ ReportsGenerator.get_highest_claim (manager (run [])) = None.
Proof. vm_compute. auto. Qed.





Lemma add_claim_witness :
  dict_contains (policyholders (manager (run Examples.scenario))) "p1" = true
  /\ float_le_0 (float_of_Z 250) = false
  /\ fst (add_claim "p1" (float_of_Z 250) "visit" "Pending" "c4" Examples.noon
                    (run Examples.scenario)) = Ok "c4".
Proof.
  split; [reflexivity|]. split; [reflexivity|].
  apply (add_claim_spec "p1" (float_of_Z 250) "visit" "Pending" "c4" Examples.noon
                        (run Examples.scenario)); reflexivity.
Defined.

Lemma add_policyholder_witness :
  add_policyholder "" 30 "Health" (float_of_Z 1000) "p9" (run Examples.scenario)
  = (Raise (ValueError "Invalid input: Name cannot be empty, age and sum insured must be positive"),
     run Examples.scenario).
Proof.
  apply (add_policyholder_spec "" 30 "Health" (float_of_Z 1000) "p9"
                               (run Examples.scenario)).
  left. reflexivity.
Defined.

Lemma update_claim_status_witness :
  dict_contains (claims (manager (run Examples.scenario))) "zz" = false
  /\ fst (update_claim_status "zz" "Approved" (run Examples.scenario))
     = Raise (ValueError "Claim not found").
Proof.
  split; [reflexivity|].
  apply (update_claim_status_spec "zz" "Approved" (run Examples.scenario)).
  reflexivity.
Defined.

Lemma claims_by_policy_type_witness :
  session_ok Examples.scenario = true
  /\ forallb recognized (dict_values (claims (manager (run Examples.scenario)))) = true
  /\ exists policy_claims,
      RiskAnalyzer.get_claims_by_policy_type (manager (run Examples.scenario))
      = Ok policy_claims.
Proof.
  split; [reflexivity|]. split; [reflexivity|].
  destruct (proj1 claims_by_policy_type_spec Examples.scenario eq_refl eq_refl)
    as [policy_claims [E _]].
  exists policy_claims. exact E.
Defined.

Lemma average_claim_by_policy_type_witness :
  session_ok Examples.two_health = true
  /\ exists averages,
      ReportsGenerator.get_average_claim_by_policy_type
        (manager (run Examples.two_health)) = Ok averages.
Proof.
  split; [reflexivity|].
  destruct (proj1 average_claim_by_policy_type_spec Examples.two_health eq_refl)
    as [averages [E _]].
  exists averages. exact E.
Defined.

Lemma highest_claim_witness :
  forallb (fun c => negb (is_nan (Claim.claim_amount c)))
          (dict_values (claims (manager (run Examples.scenario)))) = true
  /\ claims (manager (run Examples.scenario)) <> []
  /\ exists highest,
      ReportsGenerator.get_highest_claim (manager (run Examples.scenario))
      = Some highest.
Proof.
  split; [reflexivity|]. split; [discriminate|].
  destruct (proj2 (highest_claim_spec (manager (run Examples.scenario)))
                  eq_refl ltac:(discriminate))
    as (before & highest & after & E & _).
  exists highest. exact E.
Defined.

(** C9 as the specification states it fails: [add_claim] accepts an amount
    that is NaN, the claim with that amount is returned as the highest, and
    its amount is not greater than or equal to the amount 5 of the other
    claim. *)
Lemma highest_claim_nan_counterexample :
  session_ok Examples.nan_first = true
  /\ exists highest other,
      ReportsGenerator.get_highest_claim (manager (run Examples.nan_first))
      = Some highest
      /\ In other (dict_values (claims (manager (run Examples.nan_first))))
      /\ Claim.claim_amount highest = S754_nan
      /\ Claim.claim_amount other = float_of_Z 5
      /\ fle (Claim.claim_amount other) (Claim.claim_amount highest) = false
      /\ ~ (forall c,
              In c (dict_values (claims (manager (run Examples.nan_first)))) ->
              fle (Claim.claim_amount c) (Claim.claim_amount highest) = true).
Proof.
  split; [reflexivity|]. eexists. eexists.
  split; [reflexivity|].
  split; [right; left; reflexivity|].
  split; [reflexivity|]. split; [reflexivity|]. split; [reflexivity|].
  intros H. specialize (H _ (or_intror (or_introl eq_refl))).
  vm_compute in H. discriminate H.
Qed.

Lemma get_claims_by_policyholder_witness :
  session_ok Examples.scenario = true
  /\ dict_contains (policyholders (manager (run Examples.scenario))) "zz" = false
  /\ get_claims_by_policyholder (manager (run Examples.scenario)) "zz" = [].
Proof.
  split; [reflexivity|]. split; [reflexivity|].
  apply (proj2 get_claims_by_policyholder_total Examples.scenario "zz");
    reflexivity.
Defined.
End Instances.

(* ================================================================= *)
(** * What every session keeps *)

Section Kept.
Import InsuranceDataManager Session Spec.

Lemma saved_kept self :
  dict_wf (policyholders self) = true ->
  dict_wf (claims self) = true ->
  (forall k c, In (k, c) (claims self) ->
     dict_contains (policyholders self) (Claim.policyholder_id c) = true) ->
  (forall k p, In (k, p) (policyholders self) -> Policyholder.id p = k) ->
  (forall k c, In (k, c) (claims self) -> Claim.id c = k) ->
  (forall k p, In (k, p) (policyholders self) -> valid_policyholder p = true) ->
  (forall k c, In (k, c) (claims self) -> valid_claim c = true) ->
  store_kept (saved self).
Proof. intros. constructor; simpl; auto. Qed.

Lemma add_policyholder_kept name age policy_type sum_insured uuid4 w :
  store_kept w ->
  store_kept (snd (add_policyholder name age policy_type sum_insured uuid4 w)).
Proof.
  intros [W1 W2 R I1 I2 V1 V2 F]. unfold add_policyholder.
  destruct (String.eqb name "") eqn:En; [constructor; auto|].
  destruct (age <=? 0) eqn:Ea; [constructor; auto|].
  destruct (float_le_0 sum_insured) eqn:Es; [constructor; auto|].
  cbn [orb snd]. apply saved_kept; simpl; auto.
  - now apply dict_wf_set.
  - intros k c I. rewrite dict_contains_set. rewrite (R k c I). apply orb_true_r.
  - intros k p I. apply In_dict_set in I. destruct I as [[-> ->]|I]; eauto.
  - intros k p I. apply In_dict_set in I. destruct I as [[_ ->]|I]; eauto.
    unfold valid_policyholder. simpl. rewrite En, Es.
    apply Z.leb_gt in Ea. apply Z.ltb_lt in Ea. now rewrite Ea.
Qed.

Lemma add_claim_kept policyholder_id claim_amount reason status uuid4 now w :
  store_kept w ->
  store_kept (snd (add_claim policyholder_id claim_amount reason status uuid4 now w)).
Proof.
  intros [W1 W2 R I1 I2 V1 V2 F]. unfold add_claim.
  destruct (dict_contains (policyholders (manager w)) policyholder_id) eqn:C;
    [|constructor; auto].
  cbn [negb]. destruct (float_le_0 claim_amount) eqn:A; [constructor; auto|].
  cbn [snd]. apply saved_kept; simpl; auto.
  - now apply dict_wf_set.
  - intros k c I. apply In_dict_set in I. destruct I as [[_ ->]|I]; eauto.
  - intros k c I. apply In_dict_set in I. destruct I as [[-> ->]|I]; eauto.
  - intros k c I. apply In_dict_set in I. destruct I as [[_ ->]|I]; eauto.
    unfold valid_claim. simpl. now rewrite A.
Qed.

Lemma update_claim_status_kept claim_id status w :
  store_kept w -> store_kept (snd (update_claim_status claim_id status w)).
Proof.
  intros [W1 W2 R I1 I2 V1 V2 F]. unfold update_claim_status.
  destruct (dict_get (claims (manager w)) claim_id) as [c0|] eqn:G;
    [|constructor; auto].
  apply dict_get_In in G.
  cbn [snd]. apply saved_kept; simpl; auto.
  - now apply dict_wf_set.
  - intros k c I. apply In_dict_set in I. destruct I as [[_ ->]|I]; eauto.
    simpl. eauto.
  - intros k c I. apply In_dict_set in I. destruct I as [[-> ->]|I]; eauto.
    simpl. eauto.
  - intros k c I. apply In_dict_set in I. destruct I as [[_ ->]|I]; eauto.
    unfold valid_claim. simpl. exact (V2 _ _ G).
Qed.

Lemma new_manager_kept w :
  store_kept w -> {| manager := init (data_file w); data_file := data_file w |} = w.
Proof.
  intros [W1 W2 R I1 I2 V1 V2 F]. destruct w as [m f]. simpl in *. f_equal.
  destruct F as [[Ef Em] | Ef]; rewrite Ef; [now rewrite Em|].
  unfold init. now rewrite load_save.
Qed.

Lemma step_kept w c : store_kept w -> store_kept (step w c).
Proof.
  intros O. destruct c; simpl.
  - now apply add_policyholder_kept.
  - now apply add_claim_kept.
  - now apply update_claim_status_kept.
  - now rewrite new_manager_kept.
Qed.

Lemma fresh_kept : store_kept fresh.
Proof. constructor; simpl; auto; intros ? ? []. Qed.

Lemma run_from_kept s w : store_kept w -> store_kept (fold_left step s w).
Proof.
  revert w. induction s as [|c r IH]; simpl; intros w O; auto.
  apply IH. now apply step_kept.
Qed.

Lemma run_kept s : store_kept (run s).
Proof. apply run_from_kept. apply fresh_kept. Qed.

Lemma run_app s s' : run (s ++ s') = fold_left step s' (run s).
Proof. unfold run. apply fold_left_app. Qed.

Lemma forallb_items {V : Type} (p : string * V -> bool) (d : dict V) :
  (forall k v, In (k, v) d -> p (k, v) = true) -> forallb p d = true.
Proof.
  intros H. apply forallb_forall. intros [k v] I. auto.
Qed.

Lemma forallb_values {V : Type} (p : V -> bool) (d : dict V) :
  (forall k v, In (k, v) d -> p v = true) -> forallb p (dict_values d) = true.
Proof.
  intros H. apply forallb_forall. intros v I. unfold dict_values in I.
  apply in_map_iff in I. destruct I as [[k v'] [E I]]. simpl in E. subst v'.
  eauto.
Qed.

(** X1. Whatever operations a session runs, every claim of the store
    refers to a policyholder of the store: the lookup
    [policyholders[claim.policyholder_id]] of the reports and of the pages
    finds a record for every claim. *)
Theorem claims_refer_to_policyholders s :
  forallb (fun c => dict_contains (policyholders (manager (run s)))
                                  (Claim.policyholder_id c))
          (dict_values (claims (manager (run s)))) = true
  /\ Forall (fun c => exists p,
               dict_getitem (policyholders (manager (run s)))
                            (Claim.policyholder_id c) = Ok p)
            (dict_values (claims (manager (run s)))).
Proof.
  destruct (run_kept s) as [_ _ R _ _ _ _ _].
  assert (forallb (fun c => dict_contains (policyholders (manager (run s)))
                                          (Claim.policyholder_id c))
                  (dict_values (claims (manager (run s)))) = true) as B
    by (apply forallb_values; exact R).
  split; [exact B|].
  apply Forall_forall. intros c I.
  rewrite forallb_forall in B. specialize (B c I).
  unfold dict_contains in B. unfold dict_getitem.
  destruct (dict_get (policyholders (manager (run s))) (Claim.policyholder_id c));
    [eauto | discriminate].
Qed.

(** X2. In every state of the store the keys of both maps are unique and
    every record is stored under its own [id]: the key of a policyholder is
    its [id], the key of a claim is its [id]. *)
Theorem records_keyed_by_id s :
  dict_wf (policyholders (manager (run s))) = true
  /\ dict_wf (claims (manager (run s))) = true
  /\ forallb (fun '(k, p) => String.eqb (Policyholder.id p) k)
             (policyholders (manager (run s))) = true
  /\ forallb (fun '(k, c) => String.eqb (Claim.id c) k)
             (claims (manager (run s))) = true.
Proof.
  destruct (run_kept s) as [W1 W2 _ I1 I2 _ _ _].
  repeat split; auto.
  - apply forallb_items. intros k p I. apply String.eqb_eq. eauto.
  - apply forallb_items. intros k c I. apply String.eqb_eq. eauto.
Qed.

(** X3. The validation of the two add operations holds of everything the
    store keeps: in every state each policyholder has a name that is not
    empty, an age above 0 and a sum insured that is not [<= 0], and each
    claim has an amount that is not [<= 0]; updating a status or reloading
    the snapshot does not change that. *)
Theorem stored_records_valid s :
  forallb valid_policyholder (dict_values (policyholders (manager (run s)))) = true
  /\ forallb valid_claim (dict_values (claims (manager (run s)))) = true.
Proof.
  destruct (run_kept s) as [_ _ _ _ _ V1 V2 _].
  split; apply forallb_values; assumption.
Qed.




End Kept.

(* ================================================================= *)
(** * Reports over the store *)

Section MoreReports.
Import InsuranceDataManager Session Spec.

(** ** Pending claims *)

Lemma pending_loop self rest :
  forall acc,
    if forallb (fun c => negb (is_pending c)
                         || dict_contains (policyholders self)
                                          (Claim.policyholder_id c)) rest
    then exists l,
        for_each rest
          (fun pending_claims claim =>
             if String.eqb (lower (Claim.status claim)) "pending"
             then
               policyholder <- dict_getitem (policyholders self)
                                            (Claim.policyholder_id claim) ;;
               Ok (pending_claims
                     ++ [{| ReportsGenerator.claim := claim;
                            ReportsGenerator.claim_policyholder := policyholder |}])
             else Ok pending_claims)
          acc = Ok (acc ++ l)
        /\ map ReportsGenerator.claim l = filter is_pending rest
        /\ Forall (fun e =>
                     dict_get (policyholders self)
                              (Claim.policyholder_id (ReportsGenerator.claim e))
                     = Some (ReportsGenerator.claim_policyholder e)) l
    else exists k,
        for_each rest
          (fun pending_claims claim =>
             if String.eqb (lower (Claim.status claim)) "pending"
             then
               policyholder <- dict_getitem (policyholders self)
                                            (Claim.policyholder_id claim) ;;
               Ok (pending_claims
                     ++ [{| ReportsGenerator.claim := claim;
                            ReportsGenerator.claim_policyholder := policyholder |}])
             else Ok pending_claims)
          acc = Raise (KeyError k)
        /\ dict_contains (policyholders self) k = false.
Proof.
  induction rest as [|c r IH]; intros acc.
  - simpl. exists []. rewrite app_nil_r. auto.
  - cbn [forallb for_each]. unfold is_pending at 1.
    destruct (String.eqb (lower (Claim.status c)) "pending") eqn:P; cbn [negb orb].
    + unfold dict_contains, dict_getitem in *.
      destruct (dict_get (policyholders self) (Claim.policyholder_id c)) as [p|] eqn:G;
        cbn [andb bind].
      * specialize (IH (acc ++ [{| ReportsGenerator.claim := c;
                                   ReportsGenerator.claim_policyholder := p |}])).
        destruct (forallb _ r).
        -- destruct IH as (l & E & M & F).
           exists ({| ReportsGenerator.claim := c;
                      ReportsGenerator.claim_policyholder := p |} :: l).
           rewrite E, <- app_assoc. split; [reflexivity|].
           simpl. unfold is_pending at 1. rewrite P, M.
           split; [reflexivity|]. constructor; auto.
        -- exact IH.
      * exists (Claim.policyholder_id c). rewrite G. auto.
    + cbn [andb bind]. specialize (IH acc).
      destruct (forallb _ r).
      * destruct IH as (l & E & M & F). exists l. split; [exact E|].
        simpl. unfold is_pending at 1. rewrite P. auto.
      * exact IH.
Qed.

(** X6. In every state of the store [get_pending_claims] succeeds and
    returns, in the order of the claim map, one entry for each claim whose
    lowered status is "pending" and for no other, each with the
    policyholder stored under the claim's [policyholder_id]. *)
Theorem pending_claims_spec s :
  exists l,
    ReportsGenerator.get_pending_claims (manager (run s)) = Ok l
    /\ map ReportsGenerator.claim l
       = filter is_pending (dict_values (claims (manager (run s))))
    /\ Forall (fun e =>
                 dict_get (policyholders (manager (run s)))
                          (Claim.policyholder_id (ReportsGenerator.claim e))
                 = Some (ReportsGenerator.claim_policyholder e)) l.
Proof.
  pose proof (pending_loop (manager (run s))
                (dict_values (claims (manager (run s)))) []) as L.
  destruct (run_kept s) as [_ _ R _ _ _ _ _].
  rewrite (proj2 (forallb_forall _ _)) in L.
  - destruct L as (l & E & M & F). exists l. auto.
  - intros c I. unfold dict_values in I. apply in_map_iff in I.
    destruct I as [[k c'] [E I]]. simpl in E. subst c'.
    rewrite (R _ _ I). apply orb_true_r.
Qed.

(** X7. On any store, [get_pending_claims] succeeds exactly when every
    pending claim refers to a known policyholder; otherwise it raises a
    [KeyError] for a policyholder id that is not in the map.  A claim that
    is not pending is never looked up. *)
Theorem pending_claims_outcome self :
  ((exists l, ReportsGenerator.get_pending_claims self = Ok l)
   <-> forallb (fun c => negb (is_pending c)
                         || dict_contains (policyholders self)
                                          (Claim.policyholder_id c))
               (dict_values (claims self)) = true)
  /\ ((exists e, ReportsGenerator.get_pending_claims self = Raise e)
      <-> exists k, ReportsGenerator.get_pending_claims self = Raise (KeyError k)
                    /\ dict_contains (policyholders self) k = false).
Proof.
  pose proof (pending_loop self (dict_values (claims self)) []) as L.
  destruct (forallb _ (dict_values (claims self))).
  - destruct L as (l & E & _).
    change (ReportsGenerator.get_pending_claims self = Ok l) in E.
    rewrite E. split.
    + split; eauto.
    + split; [intros [e X]; discriminate | intros [k [X _]]; discriminate].
  - destruct L as (k & E & U).
    change (ReportsGenerator.get_pending_claims self = Raise (KeyError k)) in E.
    rewrite E. split.
    + split; [intros [l X]; discriminate | discriminate].
    + split; eauto.
Qed.

Lemma sum_of_ones {A : Type} (l : list A) :
  fold_left Z.add (map (fun _ => 1) l) 0 = Z.of_nat (List.length l).
Proof.
  assert (forall a, fold_left Z.add (map (fun _ : A => 1) l) a
                    = a + Z.of_nat (List.length l)) as G.
  { induction l as [|x r IH]; intros a; cbn [map fold_left List.length].
    - lia.
    - rewrite IH. lia. }
  rewrite G. lia.
Qed.

(** X8. In every state of the store the "Pending Claims" metric of the
    dashboard is the number of entries [get_pending_claims] returns. *)
Theorem dashboard_counts_pending v s :
  exists l,
    ReportsGenerator.get_pending_claims (manager (run s)) = Ok l
    /\ Pages.pending_claims (Pages.dashboard_metrics v (manager (run s)))
       = Z.of_nat (List.length l).
Proof.
  pose proof (pending_loop (manager (run s))
                (dict_values (claims (manager (run s)))) []) as L.
  destruct (run_kept s) as [_ _ R _ _ _ _ _].
  rewrite (proj2 (forallb_forall _ _)) in L.
  - destruct L as (l & E & M & _). exists l. split; [exact E|].
    unfold Pages.dashboard_metrics. cbn [Pages.pending_claims].
    rewrite sum_of_ones. change (fun claim => String.eqb (lower (Claim.status claim)) "pending")
      with is_pending.
    rewrite <- M, length_map. reflexivity.
  - intros c I. unfold dict_values in I. apply in_map_iff in I.
    destruct I as [[k c'] [E I]]. simpl in E. subst c'.
    rewrite (R _ _ I). apply orb_true_r.
Qed.

(** ** The highest claim *)

Lemma max_by_In {A : Type} (key : A -> float) rest :
  forall first, In (ReportsGenerator.max_by key first rest) (first :: rest).
Proof.
  unfold ReportsGenerator.max_by.
  induction rest as [|x r IH]; intros first; cbn [fold_left].
  - left. reflexivity.
  - destruct (flt (key first) (key x)).
    + right. apply IH.
    + destruct (IH first) as [E|I]; [left; exact E | right; right; exact I].
Qed.

(** X9. [get_highest_claim] returns a claim of the store whenever the store
    has one, whatever the amounts are (a NaN amount included); and in every
    state of the store the policyholder of the claim it returns is in the
    policyholder map, so that the lookup of the reports page succeeds. *)
Theorem highest_claim_is_stored :
  (forall self,
      match ReportsGenerator.get_highest_claim self with
      | Some c => In c (dict_values (claims self))
      | None => claims self = []
      end)
  /\ (forall s,
         match ReportsGenerator.get_highest_claim (manager (run s)) with
         | Some c => dict_contains (policyholders (manager (run s)))
                                   (Claim.policyholder_id c) = true
         | None => claims (manager (run s)) = []
         end).
Proof.
  assert (forall self,
             match ReportsGenerator.get_highest_claim self with
             | Some c => In c (dict_values (claims self))
             | None => claims self = []
             end) as G.
  { intros self. unfold ReportsGenerator.get_highest_claim, dict_values.
    destruct (claims self) as [|[k first] rest]; [reflexivity|].
    cbn [map snd]. apply max_by_In. }
  split; [exact G|]. intros s. specialize (G (manager (run s))).
  destruct (ReportsGenerator.get_highest_claim (manager (run s))); [|exact G].
  destruct (run_kept s) as [_ _ R _ _ _ _ _].
  unfold dict_values in G. apply in_map_iff in G.
  destruct G as [[k c'] [E I]]. simpl in E. subst c'. eauto.
Qed.
End MoreReports.

(* ================================================================= *)
(** * Claims per month and per policyholder *)

Section Counting.
Import InsuranceDataManager Session Spec.

Lemma fold_add_from l a : fold_left Z.add l a = a + sumZ l.
Proof.
  unfold sumZ. revert a. induction l as [|x r IH]; intros a; cbn [fold_left].
  - lia.
  - rewrite IH, (IH (0 + x)). lia.
Qed.

Lemma sumZ_cons x l : sumZ (x :: l) = x + sumZ l.
Proof. unfold sumZ at 1. cbn [fold_left]. rewrite fold_add_from. lia. Qed.

Lemma sumZ_app l l' : sumZ (l ++ l') = sumZ l + sumZ l'.
Proof.
  induction l as [|x r IH]; [reflexivity|].
  cbn [app]. rewrite !sumZ_cons, IH. lia.
Qed.

Lemma sumZ_values_set (d : dict Z) k :
  sumZ (dict_values (dict_set d k (ReportsGenerator.get_int d k + 1)))
  = sumZ (dict_values d) + 1.
Proof.
  unfold ReportsGenerator.get_int, dict_values.
  induction d as [|[k' n] r IH]; cbn [dict_set dict_get map snd].
  - reflexivity.
  - destruct (String.eqb k' k); cbn [map snd]; rewrite !sumZ_cons; [lia|].
    rewrite IH. lia.
Qed.

Lemma strptime_raises s e :
  strptime_ymd s = Raise e -> exists msg, e = ValueError msg.
Proof.
  unfold strptime_ymd.
  destruct (match_format s) as [[[y m] d]|e'] eqn:M; cbn [bind].
  - destruct ((1 <=? y) && (d <=? days_in_month y m)); [discriminate|].
    intros H. inversion H. eauto.
  - intros H. inversion H. subst e'. clear H. revert M. unfold match_format.
    repeat match goal with
           | |- context [match ?x with _ => _ end] => destruct x
           end; intros H; inversion H; eauto.
Qed.

Lemma in_month_snoc month done c :
  in_month month (done ++ [c])
  = in_month month done ++ (if String.eqb (month_of c) month then [c] else []).
Proof. unfold in_month. rewrite filter_app. reflexivity. Qed.

Lemma counted_snoc done d c :
  counted_by_month done d ->
  counted_by_month (done ++ [c])
    (dict_set d (month_of c) (ReportsGenerator.get_int d (month_of c) + 1)).
Proof.
  intros (W & S & G). split; [now apply dict_wf_set|]. split.
  - rewrite sumZ_values_set, S, length_app. cbn [List.length]. lia.
  - intros month. rewrite in_month_snoc.
    destruct (String.eqb_spec (month_of c) month) as [<-|N].
    + rewrite dict_get_set_same. unfold ReportsGenerator.get_int. rewrite G.
      destruct (in_month (month_of c) done) as [|x l]; [reflexivity|].
      cbn [app List.length]. rewrite length_app. cbn [List.length]. f_equal. lia.
    + rewrite dict_get_set_other by congruence. rewrite app_nil_r. apply G.
Qed.

Lemma monthly_loop rest :
  forall done d,
    counted_by_month done d ->
    if forallb has_date rest
    then exists d',
        for_each rest
          (fun monthly_claims claim =>
             t <- strptime_ymd (Claim.date_of_claim claim) ;;
             let month_year := strftime_ym t in
             Ok (dict_set monthly_claims month_year
                          (ReportsGenerator.get_int monthly_claims month_year + 1)))
          d = Ok d'
        /\ counted_by_month (done ++ rest) d'
    else exists msg,
        for_each rest
          (fun monthly_claims claim =>
             t <- strptime_ymd (Claim.date_of_claim claim) ;;
             let month_year := strftime_ym t in
             Ok (dict_set monthly_claims month_year
                          (ReportsGenerator.get_int monthly_claims month_year + 1)))
          d = Raise (ValueError msg).
Proof.
  induction rest as [|c r IH]; intros done d C.
  - simpl. exists d. rewrite app_nil_r. auto.
  - cbn [forallb for_each]. unfold has_date at 1, claim_day.
    pose proof (counted_snoc done d c C) as C'. unfold month_of in C'.
    destruct (strptime_ymd (Claim.date_of_claim c)) as [t|e] eqn:P; cbn [andb bind].
    + specialize (IH (done ++ [c]) _ C').
      replace (done ++ c :: r) with ((done ++ [c]) ++ r)
        by (rewrite <- app_assoc; reflexivity).
      exact IH.
    + destruct (strptime_raises _ _ P) as [msg ->]. eauto.
Qed.

Lemma counted_nil : counted_by_month [] [].
Proof. repeat split. Qed.

Lemma run_dated s : session_ok s = true -> store_dated (run s).
Proof.
  unfold run.
  assert (store_dated fresh) as F by (intros k c []).
  pose proof fresh_kept as K.
  revert F K. generalize fresh.
  induction s as [|c r IH]; intros w D K T; [exact D|].
  cbn [session_ok forallb] in T. apply andb_true_iff in T. destruct T as [T1 T2].
  cbn [fold_left]. apply IH; auto; [|now apply step_kept].
  destruct c; cbn [step].
  - unfold add_policyholder.
    destruct (String.eqb name "" || (age <=? 0) || float_le_0 sum_insured);
      exact D.
  - unfold add_claim.
    destruct (dict_contains (policyholders (manager w)) policyholder_id);
      cbn [negb]; [|exact D].
    destruct (float_le_0 claim_amount); [exact D|].
    intros k c I. cbn [snd saved manager with_claims claims] in I.
    apply In_dict_set in I. destruct I as [[_ ->]|I]; [|eauto].
    exists now. split; [exact T1 | reflexivity].
  - unfold update_claim_status.
    destruct (dict_get (claims (manager w)) claim_id) as [c0|] eqn:G; [|exact D].
    intros k c I. cbn [snd saved manager with_claims claims] in I.
    apply In_dict_set in I. destruct I as [[_ ->]|I]; [|eauto].
    apply dict_get_In in G. exact (D _ _ G).
  - now rewrite new_manager_kept.
Qed.

Lemma month_of_strftime t :
  system_time t = true ->
  forall c, Claim.date_of_claim c = strftime_ymd t ->
            has_date c = true
            /\ month_of c = substring 0 7 (Claim.date_of_claim c).
Proof.
  intros T c E. unfold has_date, claim_day, month_of. rewrite E.
  rewrite (claim_day_strftime _ T). split; [reflexivity|].
  unfold strftime_ym, strftime_ymd. cbn [ordinal].
  destruct (ord2ymd (ordinal t)) as [[y m] d].
  unfold pad4, pad2. cbn [append substring]. reflexivity.
Qed.

(** X10. In every state of the store, the dates being those [add_claim]
    wrote at system times, [get_monthly_claims] succeeds; the month it
    files a claim under is the first seven characters of the claim's date;
    its result maps exactly the months that have a claim, each to the
    number of its claims, and the counts add up to the number of claims. *)
Theorem monthly_claims_spec s :
  session_ok s = true ->
  exists monthly_claims,
    ReportsGenerator.get_monthly_claims (manager (run s)) = Ok monthly_claims
    /\ dict_wf monthly_claims = true
    /\ sumZ (dict_values monthly_claims)
       = Z.of_nat (List.length (claims (manager (run s))))
    /\ (forall month,
           dict_get monthly_claims month
           = match in_month month (dict_values (claims (manager (run s)))) with
             | [] => None
             | cs => Some (Z.of_nat (List.length cs))
             end)
    /\ Forall (fun c => month_of c = substring 0 7 (Claim.date_of_claim c))
              (dict_values (claims (manager (run s)))).
Proof.
  intros T. pose proof (run_dated s T) as D.
  assert (forall c, In c (dict_values (claims (manager (run s)))) ->
                    has_date c = true
                    /\ month_of c = substring 0 7 (Claim.date_of_claim c)) as H.
  { intros c I. unfold dict_values in I. apply in_map_iff in I.
    destruct I as [[k c'] [E I]]. simpl in E. subst c'.
    destruct (D _ _ I) as [t [Tt Et]]. now apply (month_of_strftime t). }
  pose proof (monthly_loop (dict_values (claims (manager (run s)))) [] []
                           counted_nil) as L.
  rewrite (proj2 (forallb_forall _ _)) in L by (intros c I; apply H; exact I).
  destruct L as (d & E & W & S & G). cbn [app] in S, G.
  exists d. split; [exact E|]. split; [exact W|]. split.
  - rewrite S. unfold dict_values. now rewrite length_map.
  - split; [exact G|]. apply Forall_forall. intros c I. apply H. exact I.
Qed.


(** ** Claims per policyholder *)

Lemma sumZ_map_add {A : Type} (f g : A -> Z) l :
  sumZ (map (fun x => f x + g x) l) = sumZ (map f l) + sumZ (map g l).
Proof.
  induction l as [|x r IH]; [reflexivity|].
  cbn [map]. rewrite !sumZ_cons, IH. lia.
Qed.

Lemma sumZ_indicator k keys :
  NoDup keys -> In k keys ->
  sumZ (map (fun k' => if String.eqb k k' then 1 else 0) keys) = 1.
Proof.
  induction keys as [|k0 r IH]; intros N I; [destruct I|].
  inversion N as [|? ? N1 N2]; subst. cbn [map]. rewrite sumZ_cons.
  destruct (String.eqb_spec k k0) as [->|Ne].
  - assert (sumZ (map (fun k' => if String.eqb k0 k' then 1 else 0) r) = 0) as Z0.
    { clear IH N N2 I. induction r as [|x r IH]; [reflexivity|].
      cbn [map]. rewrite sumZ_cons.
      destruct (String.eqb_spec k0 x) as [->|_].
      - exfalso. apply N1. left. reflexivity.
      - rewrite IH; [lia|]. intros X. apply N1. right. exact X. }
    lia.
  - destruct I as [->|I]; [congruence|]. rewrite IH; auto.
Qed.

Lemma claims_per_key self keys :
  NoDup keys ->
  (forall c, In c (dict_values (claims self)) ->
             In (Claim.policyholder_id c) keys) ->
  sumZ (map (fun k => Z.of_nat (List.length (get_claims_by_policyholder self k)))
            keys)
  = Z.of_nat (List.length (dict_values (claims self))).
Proof.
  intros N. unfold get_claims_by_policyholder.
  induction (dict_values (claims self)) as [|c r IH]; intros R.
  - cbn [filter List.length]. clear. induction keys as [|k l IH]; [reflexivity|].
    cbn [map]. rewrite sumZ_cons, IH. reflexivity.
  - rewrite (map_ext _
              (fun k => (if String.eqb (Claim.policyholder_id c) k then 1 else 0)
                        + Z.of_nat (List.length
                            (filter (fun claim =>
                                       String.eqb (Claim.policyholder_id claim) k) r)))).
    + rewrite sumZ_map_add, IH by (intros c' I; apply R; right; exact I).
      rewrite sumZ_indicator; auto; [|apply R; left; reflexivity].
      cbn [List.length]. lia.
    + intros k. cbn [filter].
      destruct (String.eqb (Claim.policyholder_id c) k); cbn [List.length]; lia.
Qed.

(** X12. In every state of the store each claim is counted for exactly one
    policyholder: the numbers in the column "Total Claims" of the
    policyholder page add up to the "Total Claims" metric of the
    dashboard. *)
Theorem claims_counts_add_up v s :
  sumZ (map snd (Pages.claims_counts (manager (run s))))
  = Pages.total_claims (Pages.dashboard_metrics v (manager (run s)))
  /\ map fst (Pages.claims_counts (manager (run s)))
     = dict_keys (policyholders (manager (run s))).
Proof.
  destruct (run_kept s) as [W1 _ R I1 _ _ _ _].
  set (self := manager (run s)) in *.
  assert (map Policyholder.id (dict_values (policyholders self))
          = dict_keys (policyholders self)) as K.
  { unfold dict_values, dict_keys. rewrite map_map.
    apply map_ext_in. intros [k p] I. simpl. eauto. }
  unfold Pages.claims_counts, Pages.dashboard_metrics. cbn [Pages.total_claims].
  rewrite !map_map. cbn [fst snd]. split.
  - rewrite <- (map_map Policyholder.id
                  (fun k => Z.of_nat (List.length (get_claims_by_policyholder self k)))).
    rewrite K, claims_per_key.
    + unfold dict_values. now rewrite length_map.
    + apply unique_NoDup. exact W1.
    + intros c I. apply dict_contains_In.
      unfold dict_values in I. apply in_map_iff in I.
      destruct I as [[k c'] [E I]]. simpl in E. subst c'. eauto.
  - exact K.
Qed.
End Counting.

(* ================================================================= *)
(** * How the operations compose *)

Section Composition.
Import InsuranceDataManager Session Spec.

(** X13. Two updates of the status of the same claim come to the second
    one alone: the result and the store, snapshot included, are those of
    the second update applied to the store as it was before the first. *)
Theorem update_claim_status_last_wins claim_id status1 status2 w :
  update_claim_status claim_id status2
                      (snd (update_claim_status claim_id status1 w))
  = update_claim_status claim_id status2 w.
Proof.
  unfold update_claim_status.
  destruct (dict_get (claims (manager w)) claim_id) as [c|] eqn:G; cbn [snd].
  - cbn [saved manager with_claims claims policyholders].
    rewrite dict_get_set_same, dict_set_set. reflexivity.
  - rewrite G. reflexivity.
Qed.

(** X14. A claim can be filed at once for a policyholder that was just
    added: after a successful [add_policyholder], [add_claim] with the id
    it returned and an amount that is not [<= 0] succeeds, and the claim is
    among the claims of that policyholder. *)
Theorem add_claim_after_add_policyholder
        name age policy_type sum_insured uuid_p claim_amount reason status
        uuid_c now w :
  String.eqb name "" || (age <=? 0) || float_le_0 sum_insured = false ->
  float_le_0 claim_amount = false ->
  fst (add_policyholder name age policy_type sum_insured uuid_p w) = Ok uuid_p
  /\ fst (add_claim uuid_p claim_amount reason status uuid_c now
            (snd (add_policyholder name age policy_type sum_insured uuid_p w)))
     = Ok uuid_c
  /\ In {| Claim.id := uuid_c;
           Claim.policyholder_id := uuid_p;
           Claim.claim_amount := claim_amount;
           Claim.reason := reason;
           Claim.status := status;
           Claim.date_of_claim := strftime_ymd now |}
        (get_claims_by_policyholder
           (manager (snd (add_claim uuid_p claim_amount reason status uuid_c now
                   (snd (add_policyholder name age policy_type sum_insured
                                          uuid_p w)))))
           uuid_p).
Proof.
  intros V A. unfold add_policyholder. rewrite V. cbn [fst snd].
  unfold add_claim. cbn [saved manager with_policyholders policyholders claims].
  rewrite dict_contains_set, String.eqb_refl. cbn [orb negb]. rewrite A.
  cbn [fst snd saved manager with_claims claims].
  split; [reflexivity|]. split; [reflexivity|].
  unfold get_claims_by_policyholder. apply filter_In. split.
  - unfold dict_values. apply in_map_iff.
    eexists (uuid_c, _). split; [reflexivity|].
    apply dict_get_In. apply dict_get_set_same.
  - apply String.eqb_refl.
Qed.

Lemma session_ok_snoc s c :
  session_ok s = true -> clock_ok c = true -> session_ok (s ++ [c]) = true.
Proof.
  unfold session_ok. intros T C. rewrite forallb_app, T. simpl. now rewrite C.
Qed.

Lemma claims_of_after_add self policyholder_id uuid4 claim :
  dict_contains (claims self) uuid4 = false ->
  get_claims_by_policyholder
    (with_claims self (dict_set (claims self) uuid4 claim)) policyholder_id
  = get_claims_by_policyholder self policyholder_id
    ++ (if String.eqb (Claim.policyholder_id claim) policyholder_id
        then [claim] else []).
Proof.
  intros F. unfold get_claims_by_policyholder, dict_values. cbn [claims with_claims].
  rewrite dict_set_fresh.
  - rewrite map_app, filter_app. reflexivity.
  - unfold dict_contains in F. destruct (dict_get (claims self) uuid4); congruence.
Qed.

(** X15. Filing a claim raises the frequency of its policyholder by one
    and leaves the frequency of every other policyholder as it was: in
    every state of the store, for a window of at least one day, the
    frequency computed at the time of [add_claim] (with an id not yet in
    use) is one more after it than before it. *)
Theorem add_claim_raises_frequency
        s policyholder_id claim_amount reason status uuid4 now days :
  session_ok s = true ->
  system_time now = true ->
  dict_contains (policyholders (manager (run s))) policyholder_id = true ->
  float_le_0 claim_amount = false ->
  dict_contains (claims (manager (run s))) uuid4 = false ->
  1 <= days <= 999999999 ->
  1 <= ordinal now - days ->
  exists n,
    calculate_claim_frequency (manager (run s)) policyholder_id days now = Ok n
    /\ calculate_claim_frequency
         (manager (snd (add_claim policyholder_id claim_amount reason status
                                  uuid4 now (run s))))
         policyholder_id days now = Ok (n + 1)
    /\ forall other,
        other <> policyholder_id ->
        calculate_claim_frequency
          (manager (snd (add_claim policyholder_id claim_amount reason status
                                   uuid4 now (run s))))
          other days now
        = calculate_claim_frequency (manager (run s)) other days now.
Proof.
  intros T N K A F Hd Hc.
  pose proof (system_time_bounds now N) as [Ho Hm].
  destruct (run_ok s T) as [_ _ _ _ D _].
  pose proof (run_ok (s ++ [AddClaim policyholder_id claim_amount reason status
                                     uuid4 now])
                     (session_ok_snoc s (AddClaim policyholder_id claim_amount
                                                  reason status uuid4 now) T N))
    as [_ _ _ _ D' _].
  rewrite run_app in D'. cbn [fold_left step] in D'.
  set (w' := snd (add_claim policyholder_id claim_amount reason status uuid4 now
                            (run s))) in *.
  assert (forall pid,
             get_claims_by_policyholder (manager w') pid
             = get_claims_by_policyholder (manager (run s)) pid
               ++ (if String.eqb policyholder_id pid
                   then [{| Claim.id := uuid4;
                            Claim.policyholder_id := policyholder_id;
                            Claim.claim_amount := claim_amount;
                            Claim.reason := reason;
                            Claim.status := status;
                            Claim.date_of_claim := strftime_ymd now |}]
                   else [])) as G.
  { intros pid. subst w'. unfold add_claim. rewrite K. cbn [negb]. rewrite A.
    cbn [snd saved manager]. now rewrite claims_of_after_add. }
  eexists. split; [apply calculate_claim_frequency_filter; auto; lia|].
  split.
  - rewrite calculate_claim_frequency_filter by (auto; lia).
    rewrite G, String.eqb_refl, filter_app, length_app. cbn [filter].
    unfold in_window at 2, claim_day. cbn [Claim.date_of_claim].
    rewrite (claim_day_strftime _ N). cbn [ordinal].
    destruct (Z.ltb_spec (ordinal now - days) (ordinal now)); [|lia].
    cbn [orb List.length]. f_equal. lia.
  - intros other Ne.
    rewrite !calculate_claim_frequency_filter by (auto; lia).
    rewrite G. destruct (String.eqb_spec policyholder_id other); [congruence|].
    now rewrite app_nil_r.
Qed.

Lemma filter_length_mono {A : Type} (p q : A -> bool) l :
  (forall x, p x = true -> q x = true) ->
  (List.length (filter p l) <= List.length (filter q l) <= List.length l)%nat.
Proof.
  intros H. induction l as [|x r IH]; cbn [filter List.length]; [lia|].
  specialize (H x).
  destruct (p x), (q x); cbn [List.length]; try lia;
    specialize (H eq_refl); discriminate.
Qed.

(** X16. The frequency never exceeds the number of claims of the
    policyholder and grows with the window: in every state of the store, a
    window of more days counts at least the claims a shorter window counts. *)
Theorem claim_frequency_monotone s policyholder_id days days' now :
  session_ok s = true ->
  system_time now = true ->
  -999999999 <= days <= days' ->
  days' <= 999999999 ->
  1 <= ordinal now - days' ->
  ordinal now - days <= MAXORDINAL ->
  exists n n',
    calculate_claim_frequency (manager (run s)) policyholder_id days now = Ok n
    /\ calculate_claim_frequency (manager (run s)) policyholder_id days' now = Ok n'
    /\ 0 <= n <= n'
    /\ n' <= Z.of_nat (List.length
                         (get_claims_by_policyholder (manager (run s))
                                                     policyholder_id)).
Proof.
  intros T N Hd Hd' Hc Hc'.
  pose proof (system_time_bounds now N) as [Ho Hm].
  destruct (run_ok s T) as [_ _ _ _ D _].
  do 2 eexists.
  split; [apply calculate_claim_frequency_filter; auto; lia|].
  split; [apply calculate_claim_frequency_filter; auto; lia|].
  pose proof (filter_length_mono (in_window now days) (in_window now days')
                (get_claims_by_policyholder (manager (run s)) policyholder_id)) as M.
  assert (forall c, in_window now days c = true -> in_window now days' c = true) as I.
  { intros c. unfold in_window. destruct (claim_day c) as [o|]; [|discriminate].
    rewrite !orb_true_iff, !andb_true_iff, !Z.ltb_lt, !Z.eqb_eq.
    destruct (Z.eq_dec days days') as [->|]; [tauto|]. lia. }
  specialize (M I). lia.
Qed.

(** ** The two aggregations by policy type *)

Lemma status_counts_partition cs :
  forallb recognized cs = true ->
  count (with_status "pending" cs) + count (with_status "approved" cs)
  + count (with_status "rejected" cs) = count cs.
Proof.
  unfold count, with_status.
  induction cs as [|c r IH]; intros R; [reflexivity|].
  cbn [forallb] in R. apply andb_true_iff in R. destruct R as [Rc Rr].
  specialize (IH Rr). cbn [filter].
  destruct (recognized_cases c Rc) as [E|[E|E]]; rewrite E;
    cbn [String.eqb Ascii.eqb Bool.eqb andb List.length]; lia.
Qed.

Lemma forallb_filter {A : Type} (p q : A -> bool) l :
  forallb p l = true -> forallb p (filter q l) = true.
Proof.
  intros H. apply forallb_forall. intros x I. apply filter_In in I.
  rewrite forallb_forall in H. apply H. tauto.
Qed.

Lemma session_resolves_all s :
  forall c, In c (dict_values (claims (manager (run s)))) ->
            dict_contains (policyholders (manager (run s)))
                          (Claim.policyholder_id c) = true.
Proof.
  destruct (run_kept s) as [_ _ R _ _ _ _ _].
  intros c I. unfold dict_values in I. apply in_map_iff in I.
  destruct I as [[k c'] [E I]]. simpl in E. subst c'. eauto.
Qed.

(** X17. In every state of the store in which every status is one of the
    three, each entry of [get_claims_by_policy_type] is consistent: its
    count is at least 1 and is the sum of its pending, approved and
    rejected counts. *)
Theorem status_counts_add_up s :
  forallb recognized (dict_values (claims (manager (run s)))) = true ->
  exists policy_claims,
    RiskAnalyzer.get_claims_by_policy_type (manager (run s)) = Ok policy_claims
    /\ Forall (fun item =>
                 exists n total p a r,
                   snd item = [("count", Int n); ("total_amount", total);
                               ("pending", Int p); ("approved", Int a);
                               ("rejected", Int r)]
                   /\ 1 <= n /\ p + a + r = n)
              policy_claims.
Proof.
  intros S. set (self := manager (run s)) in *.
  destruct (claims_by_type self) as [P [E [W G]]].
  { intros c I. split; [now apply session_resolves_all|].
    rewrite forallb_forall in S. now apply S. }
  exists P. split; [exact E|]. apply Forall_forall. intros [pt entry] I.
  apply (dict_wf_In_get _ _ _ W) in I. rewrite G in I.
  destruct (of_type self pt (dict_values (claims self))) as [|c cs] eqn:O;
    [discriminate|].
  inversion I; subst entry. cbn [snd].
  do 5 eexists. split; [reflexivity|]. split.
  - apply count_pos. discriminate.
  - apply status_counts_partition. rewrite <- O. now apply forallb_filter.
Qed.

(** X18. The two modules agree: in every state of the store in which every
    status is one of the three, [get_average_claim_by_policy_type] has the
    keys of [get_claims_by_policy_type], and for each policy type its
    average is the [total_amount] of the entry divided by its [count]. *)
Theorem averages_agree_with_totals s :
  forallb recognized (dict_values (claims (manager (run s)))) = true ->
  exists policy_claims averages,
    RiskAnalyzer.get_claims_by_policy_type (manager (run s)) = Ok policy_claims
    /\ ReportsGenerator.get_average_claim_by_policy_type (manager (run s))
       = Ok averages
    /\ forall pt,
        match dict_get policy_claims pt with
        | Some entry =>
            exists n total,
              dict_get entry "count" = Some (Int n)
              /\ dict_get entry "total_amount" = Some total
              /\ py_truediv total (Int n) = Ok (fdiv (to_float total) (float_of_Z n))
              /\ dict_get averages pt = Some (fdiv (to_float total) (float_of_Z n))
        | None => dict_get averages pt = None
        end.
Proof.
  intros S. set (self := manager (run s)) in *.
  destruct (claims_by_type self) as [P [E [W G]]].
  { intros c I. split; [now apply session_resolves_all|].
    rewrite forallb_forall in S. now apply S. }
  destruct (average_by_type self (session_resolves_all s)) as [A [EA [WA GA]]].
  exists P, A. split; [exact E|]. split; [exact EA|].
  intros pt. rewrite G, GA.
  destruct (of_type self pt (dict_values (claims self))) as [|c cs]; [reflexivity|].
  exists (count (c :: cs)), (amount_total (c :: cs)).
  split; [reflexivity|]. split; [reflexivity|]. split; [|reflexivity].
  unfold py_truediv. cbn [number_is_zero].
  pose proof (count_pos (c :: cs) ltac:(discriminate)).
  destruct (Z.eqb_spec (count (c :: cs)) 0); [lia | reflexivity].
Qed.

(** ** High risk *)




End Composition.

(* ================================================================= *)
(** * Behaviour on any store *)

(** The store a file gives need not be one the operations build: a file
    edited by hand can hold a claim of an unknown policyholder, a date that
    does not parse, a status of any spelling or a sum insured of zero.  The
    theorems of this part hold for every store. *)

(** A loop whose body succeeds exactly on the good items stops at the first
    item that is not good. *)
Lemma for_each_outcome {A S : Type} (good : A -> bool) (Inv : S -> Prop)
      (Q : A -> exn -> Prop) (body : S -> A -> result S) l :
  (forall s x, In x l -> Inv s ->
               match body s x with
               | Ok s' => good x = true /\ Inv s'
               | Raise e => good x = false /\ Q x e
               end) ->
  forall s, Inv s ->
    match for_each l body s with
    | Ok s' => forallb good l = true /\ Inv s'
    | Raise e => exists x, In x l /\ good x = false /\ Q x e
    end.
Proof.
  induction l as [|x r IH]; intros H s I.
  - simpl. auto.
  - cbn [for_each forallb].
    pose proof (H s x (or_introl eq_refl) I) as Hx.
    destruct (body s x) as [s'|e]; cbn [bind].
    + destruct Hx as [G I']. rewrite G. cbn [andb].
      specialize (IH (fun s x I => H s x (or_intror I)) s' I').
      destruct (for_each r body s') as [s''|e]; [exact IH|].
      destruct IH as [y [Iy Hy]]. exists y. split; [now right | exact Hy].
    + exists x. split; [now left | exact Hx].
Qed.

Lemma for_each_ext {A S : Type} (f g : S -> A -> result S) l :
  (forall s x, In x l -> f s x = g s x) ->
  forall s, for_each l f s = for_each l g s.
Proof.
  induction l as [|x r IH]; intros H s; [reflexivity|].
  cbn [for_each]. rewrite (H s x (or_introl eq_refl)).
  destruct (g s x); cbn [bind]; [|reflexivity].
  apply IH. intros s' y I. apply H. now right.
Qed.

Lemma for_each_congr {A S : Type} (R : A -> A -> Prop) (f : S -> A -> result S) l l' :
  Forall2 R l l' ->
  (forall s x y, R x y -> f s x = f s y) ->
  forall s, for_each l f s = for_each l' f s.
Proof.
  intros F H. induction F as [|x y l l' Rxy F IH]; intros s; [reflexivity|].
  cbn [for_each]. rewrite (H s x y Rxy).
  destruct (f s y); cbn [bind]; [apply IH | reflexivity].
Qed.

Section AnyStore.
Import InsuranceDataManager Spec.

Variable self : InsuranceDataManager.t.

(** ** [calculate_claim_frequency] *)



(** ** [get_high_risk_policyholders] *)

(** X21. On any store whose claim dates are all well formed, at any system
    time, [get_high_risk_policyholders] raises [ZeroDivisionError] when a
    policyholder has a sum insured of zero, which [add_policyholder] rejects
    but [load_data] accepts, and returns a list otherwise. *)
Theorem high_risk_zero_sum_insured v now :
  forallb has_date (dict_values (claims self)) = true ->
  system_time now = true ->
  match get_high_risk_policyholders v self now with
  | Ok high_risk => existsb zero_insured (policyholders self) = false
  | Raise e => e = ZeroDivisionError
               /\ existsb zero_insured (policyholders self) = true
  end.
Proof.
  intros D N.
  pose proof (system_time_bounds now N) as [Ho Hm].
  unfold EPOCH, MAXORDINAL in Ho.
  assert (forall k c, In (k, c) (claims self) -> exists o, claim_day c = Some o) as D'.
  { intros k c I. rewrite forallb_forall in D.
    specialize (D c). unfold has_date in D.
    destruct (claim_day c) as [o|]; [eauto|].
    discriminate D. unfold dict_values. apply in_map_iff. now exists (k, c). }
  unfold get_high_risk_policyholders.
  match goal with
  | |- match for_each ?l ?body ?s with _ => _ end =>
      pose proof (for_each_outcome (fun item => negb (zero_insured item))
                    (fun _ => True) (fun _ e => e = ZeroDivisionError)
                    body l) as L
  end.
  cbv beta in L.
  match type of L with
  | ?P -> _ => assert P as Step; [|specialize (L Step [] I)]
  end.
  { intros acc [pid ph] _ _.
    rewrite calculate_claim_frequency_filter
      by (auto; unfold MAXORDINAL; simpl; lia).
    cbn [bind]. unfold py_truediv, zero_insured. cbn [number_is_zero snd].
    destruct (fzero (Policyholder.sum_insured ph)); cbn [negb bind].
    - auto.
    - destruct (3 <? _); destruct (float_gt_0_8 _); simpl; auto. }
  destruct (for_each _ _ _) as [l|e].
  - destruct L as [F _]. apply not_true_is_false. intros X.
    apply existsb_exists in X. destruct X as [x [Ix Zx]].
    rewrite forallb_forall in F. specialize (F x Ix). now rewrite Zx in F.
  - destruct L as [x [Ix [Gx Qx]]]. split; [exact Qx|].
    apply existsb_exists. exists x. split; [exact Ix|].
    now apply negb_false_iff in Gx.
Qed.

(** ** The aggregations by policy type *)

Lemma in_values_resolves l :
  forallb (resolves self) l = true ->
  forall c, In c l ->
            dict_contains (policyholders self) (Claim.policyholder_id c) = true.
Proof. intros F c I. rewrite forallb_forall in F. now apply F. Qed.

(** X22. On any store, [get_average_claim_by_policy_type] returns exactly
    when the policyholder of every claim is in the store; otherwise it
    raises the [KeyError] of the policyholder id of a claim that is not.
    The division by the count never raises. *)
Theorem average_claim_outcome :
  match ReportsGenerator.get_average_claim_by_policy_type self with
  | Ok averages =>
      forallb (resolves self) (dict_values (claims self)) = true
  | Raise e =>
      exists claim,
        In claim (dict_values (claims self))
        /\ resolves self claim = false
        /\ e = KeyError (Claim.policyholder_id claim)
  end.
Proof.
  destruct (forallb (resolves self) (dict_values (claims self))) eqn:F.
  - destruct (average_by_type self (in_values_resolves _ F)) as [A [E _]].
    now rewrite E.
  - unfold ReportsGenerator.get_average_claim_by_policy_type,
      ReportsGenerator.totals_and_counts.
    match goal with
    | |- context [for_each ?l ?body ?s] =>
        pose proof (for_each_outcome (resolves self) (fun _ => True)
                      (fun c e => e = KeyError (Claim.policyholder_id c))
                      body l) as L
    end.
    cbv beta in L.
    match type of L with
    | ?P -> _ => assert P as Step; [|specialize (L Step ([], []) I)]
    end.
    { intros [totals counts] c _ _. unfold resolves, dict_contains, dict_getitem.
      destruct (dict_get (policyholders self) (Claim.policyholder_id c));
        cbn [bind]; auto. }
    destruct (for_each _ _ _) as [[totals counts]|e]; cbn [bind].
    + destruct L as [F' _]. congruence.
    + exact L.
Qed.




(** ** Constructing a record from a JSON object *)

Lemma same_keys_closed fields kw k :
  same_keys fields kw = true ->
  existsb (String.eqb k) fields = false ->
  dict_get kw k = None.
Proof.
  unfold same_keys. rewrite andb_true_iff. intros [F _] N.
  apply dict_get_None. intros I. rewrite forallb_forall in F.
  specialize (F k I). congruence.
Qed.

(** X24. When the constructor of [Policyholder] or of [Claim] builds a
    record from the keyword arguments of a JSON object, the object has exactly the fields of the class, and
    [to_dict] of the record is the object again, as a mapping: decoding and
    encoding lose nothing.  When the keys are not those of the class the
    constructor raises [TypeError]. *)
Theorem from_dict_to_dict :
  (forall kw,
      match Policyholder.from_dict (JObject kw) with
      | Ok p => same_keys Policyholder.fields kw = true
                /\ same_mapping (object_items (Policyholder.to_dict p)) kw
      | Raise e => if same_keys Policyholder.fields kw
                   then e = Untyped "Policyholder"
                   else exists msg, e = TypeError msg
      end)
  /\ (forall kw,
         match Claim.from_dict (JObject kw) with
         | Ok c => same_keys Claim.fields kw = true
                   /\ same_mapping (object_items (Claim.to_dict c)) kw
         | Raise e => if same_keys Claim.fields kw
                      then e = Untyped "Claim"
                      else exists msg, e = TypeError msg
         end).
Proof.
  split; intros kw.
  - unfold Policyholder.from_dict.
    destruct (same_keys Policyholder.fields kw) eqn:K; [|eauto].
    destruct (dict_get kw "id") as [[]|] eqn:G1; try reflexivity;
    destruct (dict_get kw "name") as [[]|] eqn:G2; try reflexivity;
    destruct (dict_get kw "age") as [[]|] eqn:G3; try reflexivity;
    destruct (dict_get kw "policy_type") as [[]|] eqn:G4; try reflexivity;
    destruct (dict_get kw "sum_insured") as [[]|] eqn:G5; try reflexivity.
    split; [reflexivity|]. intros k.
    cbn [Policyholder.to_dict object_items dict_get Policyholder.id
           Policyholder.name Policyholder.age Policyholder.policy_type
           Policyholder.sum_insured].
    destruct (String.eqb_spec "id" k) as [<-|N1]; [now rewrite G1|].
    destruct (String.eqb_spec "name" k) as [<-|N2]; [now rewrite G2|].
    destruct (String.eqb_spec "age" k) as [<-|N3]; [now rewrite G3|].
    destruct (String.eqb_spec "policy_type" k) as [<-|N4]; [now rewrite G4|].
    destruct (String.eqb_spec "sum_insured" k) as [<-|N5]; [now rewrite G5|].
    symmetry. apply (same_keys_closed Policyholder.fields); [exact K|].
    cbn [Policyholder.fields existsb].
    repeat match goal with
           | |- context [String.eqb k ?s] =>
               destruct (String.eqb_spec k s); [congruence|]
           end.
    reflexivity.
  - unfold Claim.from_dict.
    destruct (same_keys Claim.fields kw) eqn:K; [|eauto].
    destruct (dict_get kw "id") as [[]|] eqn:G1; try reflexivity;
    destruct (dict_get kw "policyholder_id") as [[]|] eqn:G2; try reflexivity;
    destruct (dict_get kw "claim_amount") as [[]|] eqn:G3; try reflexivity;
    destruct (dict_get kw "reason") as [[]|] eqn:G4; try reflexivity;
    destruct (dict_get kw "status") as [[]|] eqn:G5; try reflexivity;
    destruct (dict_get kw "date_of_claim") as [[]|] eqn:G6; try reflexivity.
    split; [reflexivity|]. intros k.
    cbn [Claim.to_dict object_items dict_get Claim.id Claim.policyholder_id
           Claim.claim_amount Claim.reason Claim.status Claim.date_of_claim].
    destruct (String.eqb_spec "id" k) as [<-|N1]; [now rewrite G1|].
    destruct (String.eqb_spec "policyholder_id" k) as [<-|N2]; [now rewrite G2|].
    destruct (String.eqb_spec "claim_amount" k) as [<-|N3]; [now rewrite G3|].
    destruct (String.eqb_spec "reason" k) as [<-|N4]; [now rewrite G4|].
    destruct (String.eqb_spec "status" k) as [<-|N5]; [now rewrite G5|].
    destruct (String.eqb_spec "date_of_claim" k) as [<-|N6]; [now rewrite G6|].
    symmetry. apply (same_keys_closed Claim.fields); [exact K|].
    cbn [Claim.fields existsb].
    repeat match goal with
           | |- context [String.eqb k ?s] =>
               destruct (String.eqb_spec k s); [congruence|]
           end.
    reflexivity.
Qed.
End AnyStore.

(* ================================================================= *)
(** * What a change of status leaves alone *)

Section StatusOnly.
Import InsuranceDataManager Spec.

Lemma same_but_status_fields a b :
  same_but_status a b ->
  Claim.policyholder_id a = Claim.policyholder_id b
  /\ Claim.claim_amount a = Claim.claim_amount b
  /\ Claim.date_of_claim a = Claim.date_of_claim b.
Proof.
  unfold same_but_status. intros H.
  pose proof (f_equal Claim.policyholder_id H) as H1.
  pose proof (f_equal Claim.claim_amount H) as H2.
  pose proof (f_equal Claim.date_of_claim H) as H3.
  auto.
Qed.

Lemma same_but_status_refl l : Forall2 same_but_status l l.
Proof. induction l; constructor; [reflexivity | assumption]. Qed.

Lemma values_after_update (cl : dict Claim.t) k c status :
  dict_get cl k = Some c ->
  Forall2 same_but_status
          (dict_values (dict_set cl k (Claim.set_status c status)))
          (dict_values cl).
Proof.
  induction cl as [|[k' c'] r IH]; cbn [dict_get dict_set]; [discriminate|].
  destruct (String.eqb k' k); intros G.
  - inversion G; subst c'. cbn [dict_values map snd]. constructor.
    + reflexivity.
    + apply same_but_status_refl.
  - cbn [dict_values map snd]. constructor; [reflexivity | now apply IH].
Qed.

Lemma claims_of_congr l l' policyholder_id :
  Forall2 same_but_status l l' ->
  Forall2 same_but_status
    (filter (fun claim => String.eqb (Claim.policyholder_id claim) policyholder_id) l)
    (filter (fun claim => String.eqb (Claim.policyholder_id claim) policyholder_id) l').
Proof.
  induction 1 as [|x y l l' R F IH]; cbn [filter]; [constructor|].
  destruct (same_but_status_fields _ _ R) as [-> _].
  destruct (String.eqb (Claim.policyholder_id y) policyholder_id);
    [constructor|]; assumption.
Qed.

Lemma amounts_congr l l' :
  Forall2 same_but_status l l' ->
  map Claim.claim_amount l = map Claim.claim_amount l'.
Proof.
  induction 1 as [|x y l l' R F IH]; cbn [map]; [reflexivity|].
  destruct (same_but_status_fields _ _ R) as [_ [-> _]]. now rewrite IH.
Qed.

Lemma recent_claims_congr cutoff_date l l' :
  Forall2 same_but_status l l' ->
  match recent_claims cutoff_date l, recent_claims cutoff_date l' with
  | Ok recent, Ok recent' => List.length recent = List.length recent'
  | Raise e, Raise e' => e = e'
  | _, _ => False
  end.
Proof.
  induction 1 as [|x y l l' R F IH]; cbn [recent_claims]; [reflexivity|].
  destruct (same_but_status_fields _ _ R) as [_ [_ ->]].
  destruct (strptime_ymd (Claim.date_of_claim y)) as [d|e]; cbn [bind];
    [|reflexivity].
  destruct (recent_claims cutoff_date l), (recent_claims cutoff_date l');
    cbn [bind]; try exact IH.
  destruct (datetime_ge d cutoff_date); cbn [List.length]; now rewrite IH.
Qed.

Lemma max_by_congr first first' rest rest' :
  same_but_status first first' ->
  Forall2 same_but_status rest rest' ->
  same_but_status (ReportsGenerator.max_by Claim.claim_amount first rest)
                  (ReportsGenerator.max_by Claim.claim_amount first' rest').
Proof.
  unfold ReportsGenerator.max_by. intros R F. revert first first' R.
  induction F as [|x y l l' Rxy F IH]; intros first first' R; cbn [fold_left];
    [exact R|].
  apply IH.
  destruct (same_but_status_fields _ _ R) as [_ [-> _]].
  destruct (same_but_status_fields _ _ Rxy) as [_ [-> _]].
  destruct (flt _ _); assumption.
Qed.

(** X25. A change of status changes no figure that does not read the
    status: on any store, whether [update_claim_status] succeeds or raises,
    the claim frequency of every policyholder, the list of high-risk
    policyholders, the averages by policy type, the monthly counts and the
    amount of the highest claim are afterwards what they were before. *)
Theorem status_update_keeps_figures claim_id status w :
  let self := manager w in
  let self' := manager (snd (update_claim_status claim_id status w)) in
  (forall policyholder_id days now,
      calculate_claim_frequency self' policyholder_id days now
      = calculate_claim_frequency self policyholder_id days now)
  /\ (forall v now,
         get_high_risk_policyholders v self' now
         = get_high_risk_policyholders v self now)
  /\ ReportsGenerator.get_average_claim_by_policy_type self'
     = ReportsGenerator.get_average_claim_by_policy_type self
  /\ ReportsGenerator.get_monthly_claims self'
     = ReportsGenerator.get_monthly_claims self
  /\ option_map Claim.claim_amount (ReportsGenerator.get_highest_claim self')
     = option_map Claim.claim_amount (ReportsGenerator.get_highest_claim self).
Proof.
  cbv zeta. unfold update_claim_status.
  destruct (dict_get (claims (manager w)) claim_id) as [c|] eqn:G; cbn [snd];
    [|repeat split; reflexivity].
  cbn [saved manager].
  set (self := manager w) in *.
  pose proof (values_after_update (claims self) claim_id c status G) as F.
  set (cl' := dict_set (claims self) claim_id (Claim.set_status c status)) in *.
  assert (forall pid,
             Forall2 same_but_status
               (get_claims_by_policyholder (with_claims self cl') pid)
               (get_claims_by_policyholder self pid)) as FC.
  { intros pid. unfold get_claims_by_policyholder. cbn [claims with_claims].
    now apply claims_of_congr. }
  assert (forall pid days now,
             calculate_claim_frequency (with_claims self cl') pid days now
             = calculate_claim_frequency self pid days now) as Hfreq.
  { intros pid days now. unfold calculate_claim_frequency.
    destruct (sub_days now days) as [cutoff|e]; cbn [bind]; [|reflexivity].
    pose proof (recent_claims_congr cutoff _ _ (FC pid)) as RC.
    destruct (recent_claims cutoff (get_claims_by_policyholder (with_claims self cl') pid)),
             (recent_claims cutoff (get_claims_by_policyholder self pid));
      cbn [bind]; try contradiction; congruence. }
  split; [exact Hfreq|]. split; [|split; [|split]].
  - intros v now. unfold get_high_risk_policyholders.
    cbn [policyholders with_claims].
    apply for_each_ext. intros acc [pid ph] _. cbv zeta.
    rewrite Hfreq, (amounts_congr _ _ (FC pid)). reflexivity.
  - unfold ReportsGenerator.get_average_claim_by_policy_type,
      ReportsGenerator.totals_and_counts.
    cbn [claims policyholders with_claims].
    rewrite (for_each_congr same_but_status _ _ _ F); [reflexivity|].
    intros [totals counts] x y R.
    destruct (same_but_status_fields _ _ R) as [-> [-> _]]. reflexivity.
  - unfold ReportsGenerator.get_monthly_claims. cbn [claims with_claims].
    rewrite (for_each_congr same_but_status _ _ _ F); [reflexivity|].
    intros d x y R.
    destruct (same_but_status_fields _ _ R) as [_ [_ ->]]. reflexivity.
  - unfold ReportsGenerator.get_highest_claim. cbn [claims with_claims].
    destruct F as [|x y l l' R F]; [reflexivity|]. cbn [option_map].
    f_equal.
    now destruct (same_but_status_fields _ _ (max_by_congr _ _ _ _ R F))
      as [_ [-> _]].
Qed.
End StatusOnly.

(* ================================================================= *)
(** * Instances of the properties with a precondition *)

Section MoreInstances.
Import InsuranceDataManager Session Spec.

(** The monthly counts of the six claims of [frequent]. *)
Lemma monthly_claims_witness :
  session_ok Examples.frequent = true
  /\ exists monthly_claims,
      ReportsGenerator.get_monthly_claims (manager (run Examples.frequent))
      = Ok monthly_claims
      /\ sumZ (dict_values monthly_claims)
         = Z.of_nat (List.length (claims (manager (run Examples.frequent)))).
Proof.
  split; [reflexivity|].
  destruct (monthly_claims_spec Examples.frequent eq_refl)
    as (monthly_claims & E & _ & S & _).
  exists monthly_claims. split; [exact E | exact S].
Defined.

(** A first policyholder and a first claim on the empty store. *)
Lemma add_claim_after_add_policyholder_witness :
  String.eqb "P" "" || (40 <=? 0) || float_le_0 (float_of_Z 10000) = false
  /\ float_le_0 (float_of_Z 3000) = false
  /\ fst (add_claim "p1" (float_of_Z 3000) "surgery" "Pending" "c1" Examples.noon
            (snd (add_policyholder "P" 40 "Health" (float_of_Z 10000) "p1" fresh)))
     = Ok "c1".
Proof.
  split; [reflexivity|]. split; [reflexivity|].
  exact (proj1 (proj2 (add_claim_after_add_policyholder
                         "P" 40 "Health" (float_of_Z 10000) "p1"
                         (float_of_Z 3000) "surgery" "Pending" "c1"
                         Examples.noon fresh eq_refl eq_refl))).
Defined.

(** A fourth claim for the policyholder of the scenario, over 30 days. *)
Lemma add_claim_raises_frequency_witness :
  session_ok Examples.scenario = true
  /\ system_time Examples.noon = true
  /\ dict_contains (policyholders (manager (run Examples.scenario))) "p1" = true
  /\ float_le_0 (float_of_Z 100) = false
  /\ dict_contains (claims (manager (run Examples.scenario))) "c9" = false
  /\ 1 <= 30 <= 999999999
  /\ 1 <= ordinal Examples.noon - 30
  /\ exists n,
      calculate_claim_frequency (manager (run Examples.scenario)) "p1" 30
                                Examples.noon = Ok n
      /\ calculate_claim_frequency
           (manager (snd (add_claim "p1" (float_of_Z 100) "visit" "Pending" "c9"
                                    Examples.noon (run Examples.scenario))))
           "p1" 30 Examples.noon = Ok (n + 1).
Proof.
  split; [reflexivity|]. split; [reflexivity|]. split; [reflexivity|].
  split; [reflexivity|]. split; [reflexivity|]. split; [lia|].
  split; [vm_compute; discriminate|].
  destruct (add_claim_raises_frequency
              Examples.scenario "p1" (float_of_Z 100) "visit" "Pending" "c9"
              Examples.noon 30 eq_refl eq_refl eq_refl eq_refl eq_refl
              ltac:(lia) ltac:(vm_compute; discriminate))
    as (n & E1 & E2 & _).
  exists n. split; [exact E1 | exact E2].
Defined.

(** The windows of 30 and of 365 days on the scenario. *)
Lemma claim_frequency_monotone_witness :
  session_ok Examples.scenario = true
  /\ system_time Examples.noon = true
  /\ -999999999 <= 30 <= 365
  /\ 365 <= 999999999
  /\ 1 <= ordinal Examples.noon - 365
  /\ ordinal Examples.noon - 30 <= MAXORDINAL
  /\ exists n n',
      calculate_claim_frequency (manager (run Examples.scenario)) "p1" 30
                                Examples.noon = Ok n
      /\ calculate_claim_frequency (manager (run Examples.scenario)) "p1" 365
                                   Examples.noon = Ok n'
      /\ 0 <= n <= n'.
Proof.
  split; [reflexivity|]. split; [reflexivity|]. split; [lia|]. split; [lia|].
  split; [vm_compute; discriminate|]. split; [vm_compute; discriminate|].
  destruct (claim_frequency_monotone
              Examples.scenario "p1" 30 365 Examples.noon eq_refl eq_refl
              ltac:(lia) ltac:(lia) ltac:(vm_compute; discriminate)
              ltac:(vm_compute; discriminate))
    as (n & n' & E & E' & L & _).
  exists n, n'. split; [exact E|]. split; [exact E' | exact L].
Defined.

Lemma status_counts_add_up_witness :
  forallb recognized (dict_values (claims (manager (run Examples.frequent)))) = true
  /\ exists policy_claims,
      RiskAnalyzer.get_claims_by_policy_type (manager (run Examples.frequent))
      = Ok policy_claims.
Proof.
  split; [reflexivity|].
  destruct (status_counts_add_up Examples.frequent eq_refl)
    as (policy_claims & E & _).
  exists policy_claims. exact E.
Defined.

Lemma averages_agree_with_totals_witness :
  forallb recognized (dict_values (claims (manager (run Examples.two_health)))) = true
  /\ exists policy_claims averages,
      RiskAnalyzer.get_claims_by_policy_type (manager (run Examples.two_health))
      = Ok policy_claims
      /\ ReportsGenerator.get_average_claim_by_policy_type
           (manager (run Examples.two_health)) = Ok averages.
Proof.
  split; [reflexivity|].
  destruct (averages_agree_with_totals Examples.two_health eq_refl)
    as (policy_claims & averages & E & E' & _).
  exists policy_claims, averages. split; [exact E | exact E'].
Defined.


(** The policyholder insured for nothing makes the risk analysis fail. *)
Lemma high_risk_zero_sum_insured_witness :
  forallb has_date (dict_values (claims Examples.uninsured_store)) = true
  /\ system_time Examples.noon = true
  /\ get_high_risk_policyholders Since_3_12 Examples.uninsured_store Examples.noon
     = Raise ZeroDivisionError.
Proof.
  split; [reflexivity|]. split; [reflexivity|].
  pose proof (high_risk_zero_sum_insured Examples.uninsured_store Since_3_12
                                         Examples.noon eq_refl eq_refl) as H.
  destruct (get_high_risk_policyholders Since_3_12 Examples.uninsured_store
                                        Examples.noon) as [l|e].
  - discriminate H.
  - destruct H as [H _]. now rewrite H.
Defined.
End MoreInstances.
